(** * MS-Project converter: duration correction, predecessor notation,
      correction summary and Gantt row filter

    A shallow embedding of the decision logic of [corrected_converter.py]
    (the loop body of [read_ms_project_corrected], [format_predecessors],
    the summary rows of [export_corrected_excel]) and of the row filter of
    [gantt_visualizer.prepare_gantt_data].

    Python floats (and the Java doubles handed over by the MPXJ bridge) are
    IEEE-754 binary64 values: they are modelled by Rocq's primitive [float]
    type, whose operations are the binary64 ones; where a statement needs
    the number a float stands for, it is taken in [R].  Python dictionaries
    keyed by task identifier are [gmap Z _]. *)

From Stdlib Require Import ZArith List String Ascii Bool Lia.
From Stdlib Require Import Floats DecimalString.
From Stdlib Require Import Reals Lra Permutation.
From stdpp Require Import gmap.

Import ListNotations.
Open Scope string_scope.
Open Scope Z_scope.

(** ** Python built-ins used by the converter *)

Module Py.

(** [sub in s] on strings: does [sub] occur at some position of [s]? *)
Fixpoint contains (sub s : string) : bool :=
  String.prefix sub s
  || match s with
     | EmptyString => false
     | String _ s' => contains sub s'
     end.

(** [sep.join(parts)]. *)
Fixpoint join (sep : string) (parts : list string) : string :=
  match parts with
  | [] => ""
  | [p] => p
  | p :: rest => p ++ sep ++ join sep rest
  end.

(** [str(n)] for an integer. *)
Definition str_int (n : Z) : string :=
  NilZero.string_of_int (Z.to_int n).

(** The exact value of a finite binary64 number is [m * 2^e]; [trunc_mag]
    is the integer part of that magnitude. *)
Definition trunc_mag (m : positive) (e : Z) : Z :=
  if 0 <=? e then Z.pos m * 2 ^ e else Z.pos m / 2 ^ (- e).

(** [int(x)] for a float: truncation towards zero; [None] stands for the
    [ValueError] / [OverflowError] raised on NaN and the infinities. *)
Definition int (x : float) : option Z :=
  match Prim2SF x with
  | S754_zero _ => Some 0
  | S754_finite s m e => Some (if s then - trunc_mag m e else trunc_mag m e)
  | S754_infinity _ | S754_nan => None
  end.

(** [m * 2^e * 10^p] rounded to the nearest integer, ties to even: the
    correctly rounded fixed-point conversion CPython performs for the
    [.pf] presentation of a finite float of magnitude [m * 2^e]. *)
Definition scaled (p : nat) (m : positive) (e : Z) : Z :=
  let a := 10 ^ Z.of_nat p * Z.pos m in
  if 0 <=? e then a * 2 ^ e
  else
    let d := 2 ^ (- e) in
    let q := a / d in
    let r := a mod d in
    match 2 * r ?= d with
    | Lt => q
    | Gt => q + 1
    | Eq => if Z.even q then q else q + 1
    end.

(** The [p] fractional digits of [t / 10^p], zero padded. *)
Fixpoint frac_digits (p : nat) (t : Z) : string :=
  match p with
  | O => ""
  | S p' => frac_digits p' (t / 10) ++ str_int (t mod 10)
  end.

Definition fixed (p : nat) (t : Z) : string :=
  str_int (t / 10 ^ Z.of_nat p)
  ++ match p with O => "" | S _ => "." ++ frac_digits p t end.

(** [format(x, '.pf')] for a float. *)
Definition format_f (p : nat) (x : float) : string :=
  match Prim2SF x with
  | S754_nan => "nan"
  | S754_infinity s => if s then "-inf" else "inf"
  | S754_zero s => (if s then "-" else "") ++ fixed p 0
  | S754_finite s m e => (if s then "-" else "") ++ fixed p (scaled p m e)
  end.

(** [f"{x:.1f}"] and [f"{x:.0f}"]. *)
Definition format_1f : float -> string := format_f 1.
Definition format_0f : float -> string := format_f 0.

(** [float(n)] for an integer: the nearest binary64 value. *)
Definition float_of_int (n : Z) : float :=
  SF2Prim (binary_normalize prec emax n 0 false).

End Py.

(** ** Objects handed over by the MPXJ bridge *)

(** A [Duration] is observed through [getDuration()] and [str(..)]; the text
    is the number followed by the unit name ("3.0eh", "5.0d", "40.0h"). *)
Record Duration := {
  getDuration : float;
  Duration_str : string
}.

Inductive RelationType := FF | FS | SF | SS.

Definition RelationType_str (t : RelationType) : string :=
  match t with FF => "FF" | FS => "FS" | SF => "SF" | SS => "SS" end.

(** The lag of a relation: [getDuration()] and [getUnits()], the latter
    already as the text [str] gives ("d", "w", "eh", ...). *)
Record Lag := {
  Lag_getDuration : float;
  Lag_getUnits : option string
}.

Record PredecessorTask := { PredecessorTask_getID : option Z }.

Record Relation := {
  getPredecessorTask : option PredecessorTask;
  getType : option RelationType;
  getLag : option Lag
}.

Record Task := {
  getID : option Z;
  Task_getDuration : option Duration;
  getStart : option string;
  getFinish : option string;
  getPredecessors : option (list Relation)
}.

(** One row of the reference workbook ('gant FCC.xls'). *)
Record NativeRow := {
  row_ID : Z;
  row_Duracion_horas : float;
  row_Nombre : string
}.

Record NativeEntry := {
  native_hours : float;
  native_name : string
}.

(** ** [read_ms_project_corrected]: the reference table *)

(** The [for _, row in df_native.iterrows()] loop: a later row with the same
    ID overwrites an earlier one. *)
Definition load_native_rows (rows : list NativeRow) : gmap Z NativeEntry :=
  fold_left
    (fun native_data row =>
       <[ row_ID row := {| native_hours := row_Duracion_horas row;
                           native_name := row_Nombre row |} ]> native_data)
    rows ∅.

(** The [try] / [except] around the load: when the workbook cannot be read
    ([None]) the table stays empty. *)
Definition load_native (df_native : option (list NativeRow)) : gmap Z NativeEntry :=
  match df_native with
  | Some rows => load_native_rows rows
  | None => ∅
  end.

(** ** [read_ms_project_corrected]: duration handling of one task *)

(** The local variables that [task_data] is built from, after the
    correction cascade of one loop iteration (lines 52-102).  The local
    [factor] is not among them: no column of the row holds it. *)
Record Corrected := {
  mpxj_duration_str : string;
  mpxj_hours : float;
  corrected_hours : float;
  corrected_duration_str : string;
  duration_source : string
}.

#[local] Set Warnings "-inexact-float".

(** [task.getID() if task.getID() else 0]: a missing ID and the ID 0 are
    both falsy. *)
Definition task_id_of (task : Task) : Z :=
  match getID task with
  | Some i => if i =? 0 then 0 else i
  | None => 0
  end.

(** [str(duration_obj) if duration_obj else ''] *)
Definition duration_str_of (duration_obj : option Duration) : string :=
  match duration_obj with
  | Some d => Duration_str d
  | None => ""
  end.

(** Lines 58-64: the MPXJ duration in hours. *)
Definition mpxj_hours_of (duration_obj : option Duration) : float :=
  match duration_obj with
  | Some d =>
      if Py.contains "eh" (Duration_str d) then getDuration d
      else if Py.contains "d" (Duration_str d) then (getDuration d * 24)%float
      else 0%float
  | None => 0%float
  end.

(** Lines 66-102: the correction cascade. *)
Definition correct_duration (native_data : gmap Z NativeEntry) (task_id : Z)
    (mpxj_duration_str : string) (mpxj_hours : float) : Corrected :=
  let corrected_hours := mpxj_hours in
  let duration_source := "MPXJ" in
  match native_data !! task_id with
  | Some entry =>
      let native_hours := native_hours entry in
      if (0 <? mpxj_hours)%float then
        let factor := (native_hours / mpxj_hours)%float in
        if (20 <=? factor)%float && (factor <=? 28)%float then
          {| mpxj_duration_str := mpxj_duration_str;
             mpxj_hours := mpxj_hours;
             corrected_hours := native_hours;
             corrected_duration_str := Py.format_1f native_hours ++ "h";
             duration_source := "Nativo (corregido)" |}
        else if (0.8 <=? factor)%float && (factor <=? 1.2)%float then
          {| mpxj_duration_str := mpxj_duration_str;
             mpxj_hours := mpxj_hours;
             corrected_hours := corrected_hours;
             corrected_duration_str := mpxj_duration_str;
             duration_source := "MPXJ (validado)" |}
        else
          {| mpxj_duration_str := mpxj_duration_str;
             mpxj_hours := mpxj_hours;
             corrected_hours := native_hours;
             corrected_duration_str := Py.format_1f native_hours ++ "h";
             duration_source := "Nativo (factor " ++ Py.format_1f factor ++ "x)" |}
      else
        {| mpxj_duration_str := mpxj_duration_str;
           mpxj_hours := mpxj_hours;
           corrected_hours := native_hours;
           corrected_duration_str := Py.format_1f native_hours ++ "h";
           duration_source := "Nativo (MPXJ=0)" |}
  | None =>
      if Py.contains "eh" mpxj_duration_str && (mpxj_hours <? 100)%float then
        {| mpxj_duration_str := mpxj_duration_str;
           mpxj_hours := mpxj_hours;
           corrected_hours := (mpxj_hours * 24)%float;
           corrected_duration_str := Py.format_1f (mpxj_hours * 24)%float ++ "h";
           duration_source := "MPXJ corregido (x24)" |}
      else
        {| mpxj_duration_str := mpxj_duration_str;
           mpxj_hours := mpxj_hours;
           corrected_hours := corrected_hours;
           corrected_duration_str := mpxj_duration_str;
           duration_source := duration_source |}
  end.

(** The local [factor] at the end of the cascade.  Line 75 is its only
    assignment, and it runs when the task has a reference entry and
    positive MPXJ hours; in every other iteration the name keeps what the
    iteration before left in it.  [None] is the name not bound yet. *)
Definition factor (native_data : gmap Z NativeEntry) (task_id : Z) (mpxj_hours : float)
    (previous : option float) : option float :=
  match native_data !! task_id with
  | Some entry =>
      if (0 <? mpxj_hours)%float
      then Some (native_hours entry / mpxj_hours)%float
      else previous
  | None => previous
  end.

(** Lines 52-102 for one task. *)
Definition correct_task (native_data : gmap Z NativeEntry) (task : Task) : Corrected :=
  let duration_obj := Task_getDuration task in
  correct_duration native_data (task_id_of task)
    (duration_str_of duration_obj) (mpxj_hours_of duration_obj).

(** ** Provenance tags *)

(** The closed set of tags of the specification; the converter writes them
    as the texts of the [Duration_Source] column. *)
Inductive ProvenanceTag :=
  | RawAccepted
  | RawAcceptedScaled24x
  | ReferenceAcceptedDayUnitFix
  | RawValidatedByReference
  | ReferenceAcceptedSuspectFactor
  | ReferenceAcceptedRawZero.

(** Reading a [Duration_Source] text back as a tag. *)
Definition tag_of_source (s : string) : option ProvenanceTag :=
  if String.eqb s "MPXJ" then Some RawAccepted
  else if String.eqb s "MPXJ corregido (x24)" then Some RawAcceptedScaled24x
  else if String.eqb s "Nativo (corregido)" then Some ReferenceAcceptedDayUnitFix
  else if String.eqb s "MPXJ (validado)" then Some RawValidatedByReference
  else if String.eqb s "Nativo (MPXJ=0)" then Some ReferenceAcceptedRawZero
  else if String.prefix "Nativo (factor " s then Some ReferenceAcceptedSuspectFactor
  else None.

Definition tag (r : Corrected) : option ProvenanceTag :=
  tag_of_source (duration_source r).

(** ** [format_predecessors] *)

(** The lag suffix of one relation (lines 146-154); [None] when [int]
    raises. *)
Definition lag_str_of (lag : option Lag) : option string :=
  match lag with
  | Some lag =>
      if negb (Lag_getDuration lag =? 0)%float then
        let lag_value := Lag_getDuration lag in
        let lag_units := match Lag_getUnits lag with Some u => u | None => "d" end in
        n ← Py.int lag_value;
        Some (if (0 <? lag_value)%float
              then "+" ++ Py.str_int n ++ lag_units
              else Py.str_int n ++ lag_units)
      else Some ""
  | None => Some ""
  end.

(** [f"{task_id}"]: an identifier prints as its decimal digits, Python's
    [None] as "None", and the placeholder text as itself. *)
Definition task_id_str (pred_task : option PredecessorTask) : string :=
  match pred_task with
  | Some t =>
      match PredecessorTask_getID t with
      | Some i => Py.str_int i
      | None => "None"
      end
  | None => "Unknown"
  end.

(** The body of the [for relation in predecessors] loop. *)
Definition relation_token (relation : Relation) : option string :=
  let task_id := task_id_str (getPredecessorTask relation) in
  let rel_type := match getType relation with
                  | Some t => RelationType_str t
                  | None => "FS"
                  end in
  lag_str ← lag_str_of (getLag relation);
  Some (task_id ++ rel_type ++ lag_str).

Definition format_predecessors (predecessors : option (list Relation)) : option string :=
  match predecessors with
  | None | Some [] => Some ""
  | Some relations =>
      formatted ← mapM relation_token relations;
      Some (Py.join "; " formatted)
  end.

(** ** [read_ms_project_corrected]: the rows *)

(** The columns of [task_data] that carry durations, dates and predecessors;
    the other columns (WBS, Name, Percent Complete, ...) are plain copies of
    task getters. *)
Record TaskRow := {
  ID : Z;
  Duration_Original : string;
  Duration_MPXJ_Hours : float;
  Duration_Corrected : string;
  Duration_Corrected_Hours : float;
  Duration_Source : string;
  Start : string;
  Finish : string;
  Predecessors : string
}.

Definition task_data (native_data : gmap Z NativeEntry) (task : Task) : option TaskRow :=
  let c := correct_task native_data task in
  predecessors ← format_predecessors (getPredecessors task);
  Some {| ID := task_id_of task;
          Duration_Original := mpxj_duration_str c;
          Duration_MPXJ_Hours := mpxj_hours c;
          Duration_Corrected := corrected_duration_str c;
          Duration_Corrected_Hours := corrected_hours c;
          Duration_Source := duration_source c;
          Start := default "" (getStart task);
          Finish := default "" (getFinish task);
          Predecessors := predecessors |}.

(** The task loop: [None] entries of [project.getTasks()] are skipped. *)
Fixpoint read_tasks (native_data : gmap Z NativeEntry) (tasks : list (option Task))
  : option (list TaskRow) :=
  match tasks with
  | [] => Some []
  | None :: rest => read_tasks native_data rest
  | Some task :: rest =>
      row ← task_data native_data task;
      rows ← read_tasks native_data rest;
      Some (row :: rows)
  end.

(** The task loop once more, each row with the value the local [factor]
    holds when the row is built; [previous] is its value on entry. *)
Fixpoint read_tasks_factor (native_data : gmap Z NativeEntry) (tasks : list (option Task))
    (previous : option float) : option (list (TaskRow * option float)) :=
  match tasks with
  | [] => Some []
  | None :: rest => read_tasks_factor native_data rest previous
  | Some task :: rest =>
      let current := factor native_data (task_id_of task)
                            (mpxj_hours_of (Task_getDuration task)) previous in
      row ← task_data native_data task;
      rows ← read_tasks_factor native_data rest current;
      Some ((row, current) :: rows)
  end.

Definition read_ms_project_corrected (df_native : option (list NativeRow))
    (tasks : list (option Task)) : option (list TaskRow) :=
  read_tasks (load_native df_native) tasks.

(** ** [export_corrected_excel]: the 'Correction_Summary' sheet *)

Inductive Cell := CInt (n : Z) | CStr (s : string).

Record SummaryRow := {
  Metric : string;
  Count : Cell;
  Percentage : string
}.

(** Number of cells of a column equal to [v]. *)
Definition occurrences (v : string) (column : list string) : nat :=
  length (List.filter (String.eqb v) column).

(** [Series.unique()]: the distinct values of a column, in the order of
    their first appearance. *)
Fixpoint Series_unique (column : list string) : list string :=
  match column with
  | [] => []
  | v :: rest => v :: List.filter (fun w => negb (String.eqb w v)) (Series_unique rest)
  end.

(** Insertion of a (value, count) pair in front of a list ordered by
    decreasing count: the pair goes before the pairs of the same count. *)
Fixpoint insert_by_count (x : string * nat) (l : list (string * nat)) : list (string * nat) :=
  match l with
  | [] => [x]
  | y :: l' => if (snd y <=? snd x)%nat then x :: l else y :: insert_by_count x l'
  end.

Definition sort_by_count (l : list (string * nat)) : list (string * nat) :=
  fold_right insert_by_count [] l.

(** [Series.value_counts()]: every distinct value with its number of
    occurrences, most frequent first, values of equal count in the order
    of their first appearance. *)
Definition value_counts (column : list string) : list (string * nat) :=
  sort_by_count
    (map (fun v => (v, occurrences v column)) (Series_unique column)).

(** [count/len(tasks_df)*100] *)
Definition percentage (count len : nat) : float :=
  (Py.float_of_int (Z.of_nat count) / Py.float_of_int (Z.of_nat len) * 100)%float.

Section Summary.

(** [Series.sum()] of a numeric column; pandas fixes the order in which
    the cells are added. *)
Variable Series_sum : list float -> float.

Definition correction_factor_cell (total_original_hours total_corrected_hours : float) : Cell :=
  if (0 <? total_original_hours)%float
  then CStr (Py.format_1f (total_corrected_hours / total_original_hours)%float ++ "x")
  else CStr "N/A".

Definition summary_data (tasks_df : list TaskRow) : list SummaryRow :=
  let correction_stats := value_counts (map Duration_Source tasks_df) in
  let total_original_hours := Series_sum (map Duration_MPXJ_Hours tasks_df) in
  let total_corrected_hours := Series_sum (map Duration_Corrected_Hours tasks_df) in
  map (fun '(source, count) =>
         {| Metric := "Tasks from " ++ source;
            Count := CInt (Z.of_nat count);
            Percentage := Py.format_1f (percentage count (length tasks_df)) ++ "%" |})
      correction_stats
  ++ [ {| Metric := "Total tasks";
          Count := CInt (Z.of_nat (length tasks_df));
          Percentage := "100%" |};
       {| Metric := "Original MPXJ hours";
          Count := CStr (Py.format_0f total_original_hours);
          Percentage := "" |};
       {| Metric := "Corrected hours";
          Count := CStr (Py.format_0f total_corrected_hours);
          Percentage := "" |};
       {| Metric := "Correction factor";
          Count := correction_factor_cell total_original_hours total_corrected_hours;
          Percentage := "" |} ].

End Summary.

(** Adding the cells from left to right, starting from 0. *)
Definition sum_left (cells : list float) : float :=
  fold_left PrimFloat.add cells 0%float.

(** ** [gantt_visualizer.prepare_gantt_data]: rows with dates *)

(** A row of the workbook as read back by pandas: an empty cell is NA
    ([None]). *)
Record GanttRow := {
  Gantt_Name : string;
  Gantt_Start : option string;
  Gantt_Finish : option string
}.

Definition notna {A : Type} (cell : option A) : bool :=
  match cell with Some _ => true | None => false end.

(** [df[df['Start'].notna() & df['Finish'].notna()]] *)
Definition filter_dated (df : list GanttRow) : list GanttRow :=
  List.filter (fun row => notna (Gantt_Start row) && notna (Gantt_Finish row)) df.

(** ** The relation formatter as the specification words it *)

Module Spec.

Record Relation := {
  predecessorTaskId : option Z;
  type : option RelationType;
  lagValue : float;
  lagUnit : string
}.

(** The integer lag value: the lag without its fractional part. *)
Definition integer_lag (r : Relation) : Z :=
  default 0 (Py.int (lagValue r)).

(** Empty for a zero lag; otherwise the integer lag value, with '+' in
    front of a positive one, followed by the unit. *)
Definition lagToken (r : Relation) : string :=
  if (lagValue r =? 0)%float then ""
  else (if (0 <? lagValue r)%float then "+" else "")
       ++ Py.str_int (integer_lag r) ++ lagUnit r.

Definition id_text (r : Relation) : string :=
  match predecessorTaskId r with
  | Some i => Py.str_int i
  | None => "Unknown"
  end.

Definition type_text (r : Relation) : string :=
  RelationType_str (default FS (type r)).

Definition token (r : Relation) : string :=
  id_text r ++ type_text r ++ lagToken r.

Definition formatRelations (relations : list Relation) : string :=
  Py.join "; " (map token relations).

End Spec.

(** A relation of the specification as the MPXJ objects the formatter
    receives: the predecessor task carries the identifier, the lag object
    carries value and unit. *)
Definition mpxj_relation (r : Spec.Relation) : Relation :=
  {| getPredecessorTask :=
       match Spec.predecessorTaskId r with
       | Some i => Some {| PredecessorTask_getID := Some i |}
       | None => None
       end;
     getType := Spec.type r;
     getLag := Some {| Lag_getDuration := Spec.lagValue r;
                       Lag_getUnits := Some (Spec.lagUnit r) |} |}.

(** A float that is a number of finite size: neither NaN nor an infinity. *)
Definition is_finite (x : float) : bool :=
  match Prim2SF x with
  | S754_zero _ | S754_finite _ _ _ => true
  | S754_infinity _ | S754_nan => false
  end.

(** ** The real numbers behind binary64 values *)

(** The power of two [2^e] as a real number, for any integer [e]. *)
Definition pow2 (e : Z) : R := powerRZ 2 e.

(** Where a real number lies between a mantissa and its successor,
    as the round and sticky bits tell. *)
Definition in_loc (mrs : shr_record) (V : R) : Prop :=
  match shr_r mrs, shr_s mrs with
  | false, false => V = IZR (shr_m mrs)
  | false, true => (IZR (shr_m mrs) < V < IZR (shr_m mrs) + / 2)%R
  | true, false => V = (IZR (shr_m mrs) + / 2)%R
  | true, true => (IZR (shr_m mrs) + / 2 < V < IZR (shr_m mrs) + 1)%R
  end.

(** The normal form of a float: a positive sign and a 53 digit mantissa. *)
Definition normal (x : float) (m : positive) (e : Z) : Prop :=
  Prim2SF x = S754_finite false m e /\ 2 ^ 52 <= Z.pos m < 2 ^ 53.

(** The real number a normal float stands for. *)
Definition value (m : positive) (e : Z) : R := (IZR (Z.pos m) * pow2 e)%R.

(** The number of tenths the one-decimal presentation of a float shows. *)
Definition tenths_of (x : float) : Z :=
  match Prim2SF x with
  | S754_finite s m e => if s then - Py.scaled 1 m e else Py.scaled 1 m e
  | _ => 0
  end.

(** Sum of [f] over a list. *)
Definition Zsum {A : Type} (f : A -> Z) (l : list A) : Z :=
  fold_right (fun x acc => f x + acc) 0 l.

(** A reference table with one entry, for task 7. *)
Definition reference_for_7 (hours : float) : gmap Z NativeEntry :=
  {[ 7 := {| native_hours := hours; native_name := "Excavacion" |} ]}.

(** Three exported rows: two durations scaled by 24, one corrected from the
    reference table. *)
Definition example_rows : list TaskRow :=
  [ {| ID := 1; Duration_Original := "20.0eh"; Duration_MPXJ_Hours := 20;
       Duration_Corrected := "480.0h"; Duration_Corrected_Hours := 480;
       Duration_Source := "MPXJ corregido (x24)";
       Start := "2025-06-19 08:00:00"; Finish := "2025-07-09 08:00:00";
       Predecessors := "" |};
    {| ID := 2; Duration_Original := "20.0eh"; Duration_MPXJ_Hours := 20;
       Duration_Corrected := "480.0h"; Duration_Corrected_Hours := 480;
       Duration_Source := "MPXJ corregido (x24)";
       Start := "2025-07-09 08:00:00"; Finish := "2025-07-29 08:00:00";
       Predecessors := "1FS" |};
    {| ID := 7; Duration_Original := "10.0eh"; Duration_MPXJ_Hours := 10;
       Duration_Corrected := "240.0h"; Duration_Corrected_Hours := 240;
       Duration_Source := "Nativo (corregido)";
       Start := "2025-07-29 08:00:00"; Finish := "2025-08-08 08:00:00";
       Predecessors := "2FS" |} ].

(** A workbook row with a start date and no finish date. *)
Definition start_only_row : GanttRow :=
  {| Gantt_Name := "Montaje";
     Gantt_Start := Some "2025-06-19 08:00:00";
     Gantt_Finish := None |}.




From Stdlib Require Import Sorted.

(** ** Python texts: more built-ins *)

(** Texts are sequences of code points below 256. *)
Module PyStr.

Definition code (c : ascii) : N := N_of_ascii c.

(** [\d] on code points below 256: the ten ASCII digits. *)
Definition is_digit (c : ascii) : bool :=
  (48 <=? code c)%N && (code c <=? 57)%N.

(** [[\d.]] *)
Definition is_digit_or_dot (c : ascii) : bool :=
  is_digit c || (code c =? 46)%N.

(** [[a-z]] *)
Definition is_lower (c : ascii) : bool :=
  (97 <=? code c)%N && (code c <=? 122)%N.

(** An ASCII letter of either case. *)
Definition is_letter (c : ascii) : bool :=
  ((65 <=? code c)%N && (code c <=? 90)%N) || is_lower c.

(** [\s] on code points below 256: tab to carriage return, the four
    separators 28..31, the space, next line (133) and the no-break space
    (160). *)
Definition is_space (c : ascii) : bool :=
  ((9 <=? code c)%N && (code c <=? 13)%N)
  || ((28 <=? code c)%N && (code c <=? 32)%N)
  || (code c =? 133)%N || (code c =? 160)%N.

(** [str.lower] on one code point below 256: 'A'..'Z' and the accented
    capitals 192..222 (the multiplication sign 215 apart) move up by 32. *)
Definition lower_char (c : ascii) : ascii :=
  if ((65 <=? code c)%N && (code c <=? 90)%N)
     || ((192 <=? code c)%N && (code c <=? 222)%N && negb (code c =? 215)%N)
  then ascii_of_N (code c + 32)
  else c.

Fixpoint lower (s : string) : string :=
  match s with
  | EmptyString => EmptyString
  | String c s' => String (lower_char c) (lower s')
  end.

(** The longest prefix of [s] whose characters satisfy [p], and the rest:
    what a greedy [[..]*] consumes. *)
Fixpoint span (p : ascii -> bool) (s : string) : string * string :=
  match s with
  | EmptyString => (EmptyString, EmptyString)
  | String c s' =>
      if p c then let (taken, rest) := span p s' in (String c taken, rest)
      else (EmptyString, s)
  end.

Fixpoint count_char (p : ascii -> bool) (s : string) : nat :=
  match s with
  | EmptyString => O
  | String c s' => (if p c then 1 else 0) + count_char p s'
  end.

Fixpoint forallb (p : ascii -> bool) (s : string) : bool :=
  match s with
  | EmptyString => true
  | String c s' => p c && forallb p s'
  end.

(** The digits of [s] read as a decimal number, dots skipped. *)
Fixpoint digits_value (acc : Z) (s : string) : Z :=
  match s with
  | EmptyString => acc
  | String c s' =>
      if is_digit c then digits_value (10 * acc + (Z.of_N (code c) - 48)) s'
      else digits_value acc s'
  end.

(** Number of digits after the dot (0 without a dot). *)
Fixpoint fraction_length (s : string) : nat :=
  match s with
  | EmptyString => O
  | String c s' =>
      if (code c =? 46)%N then count_char is_digit s' else fraction_length s'
  end.

(** The binary64 number nearest to [n / d], ties to even, for [0 <= n] and
    [0 < d]: the quotient is taken with 1074 more binary places, below the
    last place of every binary64 number, and then rounded. *)
Definition float_of_ratio (n d : Z) : float :=
  match n with
  | Z0 => 0%float
  | _ =>
      let (q, r) := Z.div_eucl (n * 2 ^ 1074) d in
      SF2Prim (binary_round_aux prec emax false q (- 1074) (new_location d r))
  end.

(** [float(s)] for a text [s] of digits and dots (group 1 of the duration
    pattern): the nearest binary64 number; [None] stands for the
    [ValueError] of a text with two dots or with no digit. *)
Definition float_of_digits (s : string) : option float :=
  if forallb is_digit_or_dot s
     && (count_char (fun c => (code c =? 46)%N) s <=? 1)%nat
     && (1 <=? count_char is_digit s)%nat
  then Some (float_of_ratio (digits_value 0 s) (10 ^ Z.of_nat (fraction_length s)))
  else None.

(** [unit.startswith(c)] for a one character prefix. *)
Definition starts_with (c : ascii) (s : string) : bool :=
  match s with
  | String c' _ => Ascii.eqb c c'
  | EmptyString => false
  end.

(** [text * n] for an integer [n]: nothing for [n <= 0]. *)
Definition repeat (text : string) (n : Z) : string :=
  Nat.iter (Z.to_nat n) (String.append text) EmptyString.

End PyStr.

(** ** [gantt_visualizer.parse_duration] *)

(** [re.match(r'([\d.]+)\s*([a-z]+)', s)]: the two groups.  Each class is
    followed by one that shares no character with it, so the greedy runs
    are the only way to match. *)
Definition match_duration (s : string) : option (string * string) :=
  let (number, rest) := PyStr.span PyStr.is_digit_or_dot s in
  match number with
  | EmptyString => None
  | _ =>
      let (_, rest') := PyStr.span PyStr.is_space rest in
      let (unit, _) := PyStr.span PyStr.is_lower rest' in
      match unit with
      | EmptyString => None
      | _ => Some (number, unit)
      end
  end.



(** The unit dispatch of [parse_duration] (lines 30-40). *)
Definition days_of_unit (unit : string) (value : float) : float :=
  if PyStr.starts_with "d" unit then value
  else if PyStr.starts_with "h" unit || PyStr.starts_with "e" unit then (value / 8)%float
  else if PyStr.starts_with "w" unit then (value * 5)%float
  else if PyStr.starts_with "m" unit then (value * 20)%float
  else value.

(** [parse_duration] on a text cell; [None] as argument is a missing cell
    (NaN or [None]), [None] as result the [ValueError] of [float]. *)
Definition parse_duration (duration_str : option string) : option float :=
  match duration_str with
  | None | Some EmptyString => Some 0%float
  | Some text =>
      match match_duration (PyStr.lower text) with
      | None => Some 0%float
      | Some (number, unit) =>
          value ← PyStr.float_of_digits number;
          Some (days_of_unit unit value)
      end
  end.

(** ** [gantt_visualizer.prepare_gantt_data]: status and display name *)

(** A workbook row with the columns the chart uses; an empty cell of a
    text column is NA ([None]). *)
Record ChartRow := {
  Chart_Name : option string;
  Chart_Start : option string;
  Chart_Finish : option string;
  Percent_Complete : float;
  Outline_Level : float
}.

(** The name and the dates of a chart row. *)
Definition dates_of (row : ChartRow) : GanttRow :=
  {| Gantt_Name := default "" (Chart_Name row);
     Gantt_Start := Chart_Start row;
     Gantt_Finish := Chart_Finish row |}.

Record PreparedRow := {
  prepared_from : ChartRow;
  Status : string;
  DisplayName : string
}.

(** Lines 80-84. *)
Definition status_of (x : float) : string :=
  if (100 <=? x)%float then "Complete"
  else if (0 <? x)%float then "In Progress"
  else "Not Started".

(** Lines 102-105: two spaces per outline level in front of the name.
    [None] when [int] raises on the level, or when the name cell is NA and
    cannot be appended to a text. *)
Definition display_name (row : ChartRow) : option string :=
  level ← Py.int (Outline_Level row);
  name ← Chart_Name row;
  Some (PyStr.repeat "  " level ++ name).

Definition prepare_row (row : ChartRow) : option PreparedRow :=
  name ← display_name row;
  Some {| prepared_from := row;
          Status := status_of (Percent_Complete row);
          DisplayName := name |}.

(** Lines 71-107 on the rows of the sheet: the rows without dates are
    dropped first, the others get status and display name.  With no row
    left, [df.apply] of line 102 hands back a frame in place of a column
    (pandas tries the lambda on a row of NaN, where it raises, and takes
    that as 'no reduction'), and the assignment to [df['DisplayName']]
    raises ValueError. *)
Definition prepare_rows (df : list ChartRow) : option (list PreparedRow) :=
  match List.filter (fun row => notna (Chart_Start row) && notna (Chart_Finish row)) df with
  | [] => None
  | dated => mapM prepare_row dated
  end.

(** ** [gantt_visualizer.create_resource_chart]: the resource sheet *)

(** The [for sheet in xl_file.sheet_names] loop with its [break]. *)
Fixpoint find_resource_sheet (sheet_names : list string) : option string :=
  match sheet_names with
  | [] => None
  | sheet :: rest =>
      if Py.contains "Resource" sheet then Some sheet
      else find_resource_sheet rest
  end.

(** ** [export_corrected_excel]: column widths *)

(** The inner loop over the cells of a column (lines 197-204), on the
    texts [str(cell.value)]. *)
Definition max_length (cells : list string) : nat :=
  fold_left (fun max_length cell =>
               if (max_length <? String.length cell)%nat then String.length cell
               else max_length)
            cells O.

(** [min(max_length + 2, 50)] *)
Definition adjusted_width (cells : list string) : nat :=
  Nat.min (max_length cells + 2) 50.

(** ** [ms_project_converter.read_ms_project]: the plain reader *)

(** The columns of the plain reader that the corrected reader has too. *)
Record PlainRow := {
  Plain_ID : Z;
  Plain_Duration : string;
  Plain_Start : string;
  Plain_Finish : string;
  Plain_Predecessors : string
}.

Definition plain_task_data (task : Task) : option PlainRow :=
  predecessors ← format_predecessors (getPredecessors task);
  Some {| Plain_ID := task_id_of task;
          Plain_Duration := duration_str_of (Task_getDuration task);
          Plain_Start := default "" (getStart task);
          Plain_Finish := default "" (getFinish task);
          Plain_Predecessors := predecessors |}.

Fixpoint read_ms_project (tasks : list (option Task)) : option (list PlainRow) :=
  match tasks with
  | [] => Some []
  | None :: rest => read_ms_project rest
  | Some task :: rest =>
      row ← plain_task_data task;
      rows ← read_ms_project rest;
      Some (row :: rows)
  end.

(** The plain columns of a corrected row. *)
Definition plain_columns (row : TaskRow) : PlainRow :=
  {| Plain_ID := ID row;
     Plain_Duration := Duration_Original row;
     Plain_Start := Start row;
     Plain_Finish := Finish row;
     Plain_Predecessors := Predecessors row |}.

(** The tasks of a project that are not [None]. *)
Definition present_tasks (tasks : list (option Task)) : list Task :=
  omap (fun task : option Task => task) tasks.

(** ** [corrected_converter.main] *)

(** What a run finds outside the program. *)
Record Inputs := {
  mpp_file_exists : bool;                     (* os.path.exists(args.mpp_file) *)
  mpxj_available : bool;                      (* import mpxj and startJVM work *)
  project_tasks : option (list (option Task));  (* reader.read; None: it raises *)
  gant_FCC : option (list NativeRow);         (* the reference workbook *)
  output_writable : bool                      (* export_corrected_excel completes *)
}.

(** The state a run changes: the JVM of the bridge, and the tables handed
    to [export_corrected_excel]. *)
Record Process := {
  jvm_started : bool;
  exported : list (list TaskRow)
}.

Inductive Outcome :=
  | Returned
  | SystemExit (code : Z)
  | Raised.

(** [setup_jvm]: start the JVM unless it runs already; [None] when the
    bridge cannot be loaded. *)
Definition setup_jvm (inputs : Inputs) (p : Process) : option Process :=
  if jvm_started p then Some p
  else if mpxj_available inputs
       then Some {| jvm_started := true; exported := exported p |}
       else None.

(** The body of the [try] of [main] (lines 226-253); the prints of the
    summary are taken to succeed. *)
Definition main_try (inputs : Inputs) (p : Process) : Outcome * Process :=
  match setup_jvm inputs p with
  | None => (Raised, p)
  | Some p =>
      match project_tasks inputs with
      | None => (Raised, p)
      | Some tasks =>
          match read_ms_project_corrected (gant_FCC inputs) tasks with
          | None => (Raised, p)
          | Some [] => (SystemExit 1, p)
          | Some tasks_data =>
              let p := {| jvm_started := jvm_started p;
                          exported := exported p ++ [tasks_data] |} in
              if output_writable inputs then (Returned, p) else (Raised, p)
          end
      end
  end.

(** [except Exception]: any exception becomes [sys.exit(1)]; a
    [SystemExit] is no [Exception] and passes. *)
Definition main_except (o : Outcome) : Outcome :=
  match o with
  | Raised => SystemExit 1
  | _ => o
  end.

(** [finally]: shut the JVM down when it runs. *)
Definition main_finally (p : Process) : Process :=
  if jvm_started p then {| jvm_started := false; exported := exported p |} else p.

(** [main], from the check of the input file on; the exit status of the
    process and its last state. *)
Definition main (inputs : Inputs) (p : Process) : Z * Process :=
  if negb (mpp_file_exists inputs) then (1, p)
  else
    let (o, p) := main_try inputs p in
    (match main_except o with
     | Returned => 0
     | SystemExit code => code
     | Raised => 1
     end,
     main_finally p).

(** ** Relations whose lag cannot be printed *)

(** The lag of the relation is NaN or infinite. *)
Definition lag_not_finite (relation : Relation) : bool :=
  match getLag relation with
  | Some lag => negb (is_finite (Lag_getDuration lag))
  | None => false
  end.

(** The entry the reference table keeps for a workbook row. *)
Definition entry_of_row (row : NativeRow) : NativeEntry :=
  {| native_hours := row_Duracion_horas row; native_name := row_Nombre row |}.

(** ** [mpp_to_xlsx.main]: the name of the output file *)

(** [os.path.splitext] for POSIX paths. *)
Module PyPath.

(** [p.rfind(c)] for one character: the index of its last occurrence, or
    -1. *)
Fixpoint rfind (c : ascii) (p : string) : Z :=
  match p with
  | EmptyString => -1
  | String c' p' =>
      let r := rfind c p' in
      if 0 <=? r then r + 1 else if Ascii.eqb c' c then 0 else -1
  end.

(** [p[:n]] and [p[n:]] for [0 <= n]. *)
Fixpoint take (n : nat) (p : string) : string :=
  match n, p with
  | S n', String c p' => String c (take n' p')
  | _, _ => EmptyString
  end.

Fixpoint drop (n : nat) (p : string) : string :=
  match n, p with
  | S n', String _ p' => drop n' p'
  | _, _ => p
  end.

(** The loop that skips the leading dots of the file name: is there a
    character other than the dot in [name]? *)
Fixpoint has_name_char (name : string) : bool :=
  match name with
  | EmptyString => false
  | String c name' => if Ascii.eqb c "." then has_name_char name' else true
  end.

Definition splitext (p : string) : string * string :=
  let sepIndex := rfind "/" p in
  let dotIndex := rfind "." p in
  if (sepIndex <? dotIndex)
     && has_name_char (take (Z.to_nat (dotIndex - (sepIndex + 1)))
                            (drop (Z.to_nat (sepIndex + 1)) p))
  then (take (Z.to_nat dotIndex) p, drop (Z.to_nat dotIndex) p)
  else (p, EmptyString).

(** No character of [s] is [c]. *)
Definition without (c : ascii) (s : string) : bool :=
  PyStr.forallb (fun c' => negb (Ascii.eqb c' c)) s.

End PyPath.

(** Lines 166-170: the output file of a run; [output] is the [-o]
    option. *)
Definition output_file (input_file : string) (output : option string) : string :=
  match output with
  | None => fst (PyPath.splitext input_file) ++ ".xlsx"
  | Some output => output
  end.

Ltac each_char c :=
  destruct c as [[] [] [] [] [] [] [] []]; vm_compute; try reflexivity; try discriminate.

(** ** The built-ins and the cascade on sample values *)

Example contains_eh : Py.contains "eh" "3.0eh" = true.
Proof. reflexivity. Qed.

Example format_1f_240 : Py.format_1f 240%float = "240.0".
Proof. vm_compute. reflexivity. Qed.

Example format_1f_34 : Py.format_1f (34 / 10)%float = "3.4".
Proof. vm_compute. reflexivity. Qed.

Example format_0f_tie : Py.format_0f 2.5%float = "2" /\ Py.format_0f 3.5%float = "4" /\ Py.format_f 2 (-0.125)%float = "-0.12".
Proof. vm_compute. auto. Qed.

Example float_of_int_3 : Py.float_of_int 3 = 3%float /\ Py.float_of_int (2^53 + 1) = 9007199254740992%float.
Proof. vm_compute. auto. Qed.

Example value_counts_ex : value_counts ["a"; "b"; "b"; "c"; "a"; "b"] = [("b", 3%nat); ("a", 2%nat); ("c", 1%nat)].
Proof. vm_compute. reflexivity. Qed.

Example value_counts_ties :
  value_counts ["c"; "a"; "b"; "a"; "c"; "d"] = [("c", 2%nat); ("a", 2%nat); ("b", 1%nat); ("d", 1%nat)].
Proof. vm_compute. reflexivity. Qed.

Example format_1f_tie : Py.format_1f 0.25%float = "0.2".
Proof. vm_compute. reflexivity. Qed.

Example int_neg : Py.int (-2.7)%float = Some (-2).
Proof. vm_compute. reflexivity. Qed.

Example e2e_960 :
  correct_task ∅ {| getID := Some 3; Task_getDuration := Some {| getDuration := 40; Duration_str := "40.0eh" |};
                    getStart := None; getFinish := None; getPredecessors := None |}
  = {| mpxj_duration_str := "40.0eh"; mpxj_hours := 40; corrected_hours := 960;
       corrected_duration_str := "960.0h"; duration_source := "MPXJ corregido (x24)" |}.
Proof. vm_compute. reflexivity. Qed.

(** ** Facts about binary64 comparisons and products *)

Module FloatFacts.

Lemma Prim2SF_zero : Prim2SF 0%float = S754_zero false.
Proof. reflexivity. Qed.


Lemma eqb_zero_not_ltb (x : float) :
  (x =? 0)%float = true -> (0 <? x)%float = false.
Proof.
  rewrite FloatAxioms.eqb_spec, FloatAxioms.ltb_spec, Prim2SF_zero.
  destruct (Prim2SF x) as [s | s | | s m e]; cbn; try discriminate; auto.
  - destruct s; discriminate.
  - destruct s; discriminate.
Qed.








(** The two bands of the cascade do not meet: nothing that is at least 20
    is at most 1.2. *)
Lemma bands_disjoint (f : float) :
  (20 <=? f)%float = true -> (f <=? 1.2)%float = true -> False.
Proof.
  rewrite !FloatAxioms.leb_spec.
  change (Prim2SF 20) with (S754_finite false 5629499534213120 (-48)).
  change (Prim2SF 1.2) with (S754_finite false 5404319552844595 (-52)).
  unfold SFleb, SFcompare.
  destruct (Prim2SF f) as [s | s | | s m e]; try discriminate.
  - destruct s; discriminate.
  - destruct s; try discriminate.
    destruct (Z.compare_spec (-48) e), (Z.compare_spec e (-52));
      try discriminate; lia.
Qed.

Lemma pow2_pos e : (0 < pow2 e)%R.
Proof. apply powerRZ_lt. lra. Qed.

Lemma pow2_add a b : pow2 (a + b) = (pow2 a * pow2 b)%R.
Proof. apply powerRZ_add. lra. Qed.

Lemma pow2_succ a : pow2 (a + 1) = (2 * pow2 a)%R.
Proof. rewrite pow2_add. unfold pow2. rewrite powerRZ_1. lra. Qed.

Lemma pow2_nonneg_IZR a : 0 <= a -> pow2 a = IZR (2 ^ a).
Proof.
  intros Ha. unfold pow2. rewrite <- (Z2Nat.id a Ha) at 1.
  rewrite <- pow_powerRZ. rewrite <- (Z2Nat.id a Ha) at 2.
  generalize (Z.to_nat a) as k. induction k as [| k IH].
  - reflexivity.
  - rewrite Nat2Z.inj_succ, Z.pow_succ_r by lia. rewrite mult_IZR, <- IH. cbn. lra.
Qed.

Lemma Rle_div_r (a V d : R) : (0 < d -> a * d <= V -> a <= V / d)%R.
Proof.
  intros Hd H. apply (Rmult_le_reg_r d); [exact Hd | ].
  replace (V / d * d)%R with V by (field; lra). exact H.
Qed.

Lemma Rlt_div_l (a V d : R) : (0 < d -> V < a * d -> V / d < a)%R.
Proof.
  intros Hd H. apply (Rmult_lt_reg_r d); [exact Hd | ].
  replace (V / d * d)%R with V by (field; lra). exact H.
Qed.

Lemma in_loc_bounds mrs V : in_loc mrs V -> (IZR (shr_m mrs) <= V < IZR (shr_m mrs) + 1)%R.
Proof. destruct mrs as [m [] []]; unfold in_loc; cbn; lra. Qed.

Lemma shr_1_loc mrs V :
  0 <= shr_m mrs -> in_loc mrs V -> 0 <= shr_m (shr_1 mrs) /\ in_loc (shr_1 mrs) (V / 2).
Proof.
  destruct mrs as [m r s]. cbn [shr_m]. intros Hm H.
  destruct m as [| p | p]; [ | | lia].
  - destruct r, s; unfold in_loc in *; cbn in *; split; try lia; lra.
  - destruct p as [p | p | ].
    + assert (E : IZR (Z.pos p~1) = (2 * IZR (Z.pos p) + 1)%R).
      { rewrite Pos2Z.inj_xI, plus_IZR, mult_IZR. reflexivity. }
      destruct r, s; unfold in_loc in *; cbn [shr_1 shr_m shr_r shr_s orb] in *;
        rewrite E in H; split; try lia; lra.
    + assert (E : IZR (Z.pos p~0) = (2 * IZR (Z.pos p))%R).
      { rewrite Pos2Z.inj_xO, mult_IZR. reflexivity. }
      destruct r, s; unfold in_loc in *; cbn [shr_1 shr_m shr_r shr_s orb] in *;
        rewrite E in H; split; try lia; lra.
    + destruct r, s; unfold in_loc in *; cbn in *; split; try lia; lra.
Qed.

Lemma iter_shr_1_loc p : forall mrs V,
  0 <= shr_m mrs -> in_loc mrs V ->
  0 <= shr_m (SpecFloat.iter_pos shr_1 p mrs)
  /\ in_loc (SpecFloat.iter_pos shr_1 p mrs) (V / IZR (2 ^ Z.pos p)).
Proof.
  induction p as [p IH | p IH | ]; intros mrs V Hm H.
  - cbn [SpecFloat.iter_pos].
    destruct (shr_1_loc mrs V Hm H) as [Hm1 H1].
    destruct (IH _ _ Hm1 H1) as [Hm2 H2].
    destruct (IH _ _ Hm2 H2) as [Hm3 H3].
    split; [exact Hm3 | ].
    replace (V / IZR (2 ^ Z.pos p~1))%R with (V / 2 / IZR (2 ^ Z.pos p) / IZR (2 ^ Z.pos p))%R;
      [exact H3 | ].
    rewrite (Pos2Z.inj_xI p), Z.pow_add_r, Z.pow_mul_r, !mult_IZR by lia.
    change (2 ^ 2) with (2 * 2). rewrite Z.pow_mul_l, ?mult_IZR.
    assert (0 < IZR (2 ^ Z.pos p))%R by (apply IZR_lt; lia).
    change (2 ^ 1) with 2. field. lra.
  - cbn [SpecFloat.iter_pos].
    destruct (IH _ _ Hm H) as [Hm2 H2].
    destruct (IH _ _ Hm2 H2) as [Hm3 H3].
    split; [exact Hm3 | ].
    replace (V / IZR (2 ^ Z.pos p~0))%R with (V / IZR (2 ^ Z.pos p) / IZR (2 ^ Z.pos p))%R;
      [exact H3 | ].
    rewrite (Pos2Z.inj_xO p), Z.pow_mul_r by lia.
    change (2 ^ 2) with (2 * 2). rewrite Z.pow_mul_l, ?mult_IZR.
    assert (0 < IZR (2 ^ Z.pos p))%R by (apply IZR_lt; lia).
    field. lra.
  - cbn [SpecFloat.iter_pos]. change (2 ^ 1) with 2. apply shr_1_loc; assumption.
Qed.

Lemma digits2_pos_bounds (p : positive) :
  2 ^ (Z.pos (digits2_pos p) - 1) <= Z.pos p < 2 ^ Z.pos (digits2_pos p).
Proof.
  induction p as [p IH | p IH | ]; cbn [digits2_pos].
  - rewrite Pos2Z.inj_succ, (Pos2Z.inj_xI p).
    replace (Z.succ (Z.pos (digits2_pos p)) - 1) with (Z.succ (Z.pos (digits2_pos p) - 1)) by lia.
    rewrite !Z.pow_succ_r by lia.
    revert IH. generalize (2 ^ (Z.pos (digits2_pos p) - 1)) (2 ^ Z.pos (digits2_pos p)). lia.
  - rewrite Pos2Z.inj_succ, (Pos2Z.inj_xO p).
    replace (Z.succ (Z.pos (digits2_pos p)) - 1) with (Z.succ (Z.pos (digits2_pos p) - 1)) by lia.
    rewrite !Z.pow_succ_r by lia.
    revert IH. generalize (2 ^ (Z.pos (digits2_pos p) - 1)) (2 ^ Z.pos (digits2_pos p)). lia.
  - cbn. lia.
Qed.

Lemma digits2_pos_unique (p : positive) (k : Z) :
  2 ^ (k - 1) <= Z.pos p < 2 ^ k -> Z.pos (digits2_pos p) = k.
Proof.
  intros [Hlo Hhi]. pose proof (digits2_pos_bounds p) as [Dlo Dhi].
  assert (0 < k).
  { destruct (Z.ltb_spec 0 k) as [| Hk]; [assumption | ].
    destruct (Z.eq_dec k 0) as [-> | Hne].
    - change (2 ^ 0) with 1 in Hhi. lia.
    - rewrite Z.pow_neg_r in Hhi by lia. lia. }
  assert (Z.pos (digits2_pos p) - 1 < k).
  { apply (Z.pow_lt_mono_r_iff 2); lia. }
  assert (k - 1 < Z.pos (digits2_pos p)).
  { apply (Z.pow_lt_mono_r_iff 2); lia. }
  lia.
Qed.

(** Rounding to nearest, ties to even, is within one half. *)
Lemma round_nearest_even_loc (mrs : shr_record) (W : R) :
  in_loc mrs W ->
  shr_m mrs <= round_nearest_even (shr_m mrs) (loc_of_shr_record mrs) <= shr_m mrs + 1
  /\ (W - / 2 <= IZR (round_nearest_even (shr_m mrs) (loc_of_shr_record mrs)) <= W + / 2)%R.
Proof.
  destruct mrs as [m r s]. unfold in_loc. cbn [shr_m shr_r shr_s loc_of_shr_record].
  intros H.
  destruct r, s; cbn [round_nearest_even]; try destruct (Z.even m);
    rewrite ?plus_IZR; (split; [lia | ]); lra.
Qed.

Lemma shr_fexp_exact_small (m e : Z) :
  2 ^ 52 <= m < 2 ^ 53 -> -1074 <= e ->
  shr_fexp prec emax m e loc_Exact
  = ({| shr_m := m; shr_r := false; shr_s := false |}, e).
Proof.
  intros Hm He. destruct m as [| p | p]; try lia.
  unfold shr_fexp. cbn [Zdigits2].
  rewrite (digits2_pos_unique p 53) by (change (53 - 1) with 52; lia).
  unfold fexp, SpecFloat.emin, prec, emax.
  replace (Z.max (53 + e - 53) (3 - 1024 - 53) - e) with 0 by lia.
  reflexivity.
Qed.

Lemma shr_fexp_exact_carry (e : Z) :
  -1074 <= e ->
  shr_fexp prec emax (2 ^ 53) e loc_Exact
  = ({| shr_m := 2 ^ 52; shr_r := false; shr_s := false |}, e + 1).
Proof.
  intros He. unfold shr_fexp.
  change (Zdigits2 (2 ^ 53)) with 54.
  unfold fexp, SpecFloat.emin, prec, emax.
  replace (Z.max (54 + e - 53) (3 - 1024 - 53) - e) with 1 by lia.
  reflexivity.
Qed.

Lemma shr_fexp_normal (mx : positive) (ex : Z) (lx : location) (V : R) :
  in_loc (shr_record_of_loc (Z.pos mx) lx) V ->
  53 <= Z.pos (digits2_pos mx) ->
  -1074 <= Z.pos (digits2_pos mx) + ex - 53 ->
  exists mrs,
    shr_fexp prec emax (Z.pos mx) ex lx = (mrs, Z.pos (digits2_pos mx) + ex - 53)
    /\ 2 ^ 52 <= shr_m mrs < 2 ^ 53
    /\ in_loc mrs (V / IZR (2 ^ (Z.pos (digits2_pos mx) - 53))).
Proof.
  intros HV Hd He.
  pose proof (digits2_pos_bounds mx) as [Dlo Dhi].
  set (d := Z.pos (digits2_pos mx)) in *.
  assert (Hm0 : shr_m (shr_record_of_loc (Z.pos mx) lx) = Z.pos mx)
    by (destruct lx as [| []]; reflexivity).
  assert (Hshift : exists mrs,
             shr (shr_record_of_loc (Z.pos mx) lx) ex (d - 53) = (mrs, d + ex - 53)
             /\ 0 <= shr_m mrs
             /\ in_loc mrs (V / IZR (2 ^ (d - 53)))).
  { destruct (d - 53) as [| n | n] eqn:En; try lia.
    - exists (shr_record_of_loc (Z.pos mx) lx). cbn [shr].
      split; [f_equal; lia | ]. split; [rewrite Hm0; lia | ].
      change (2 ^ 0) with 1. replace (V / 1)%R with V by field. exact HV.
    - eexists. cbn [shr]. split; [f_equal; lia | ].
      apply iter_shr_1_loc; [rewrite Hm0; lia | exact HV]. }
  destruct Hshift as (mrs & Eshr & Hm & Hloc).
  exists mrs. split; [ | split; [ | exact Hloc]].
  - unfold shr_fexp. cbn [Zdigits2]. fold d.
    unfold fexp, SpecFloat.emin, prec, emax.
    replace (Z.max (d + ex - 53) (3 - 1024 - 53) - ex) with (d - 53) by lia.
    exact Eshr.
  - pose proof (in_loc_bounds _ _ Hloc) as [Blo Bhi].
    pose proof (in_loc_bounds _ _ HV) as [Vlo Vhi]. rewrite Hm0 in Vlo, Vhi.
    assert (Hsplit_lo : 2 ^ (d - 1) = 2 ^ 52 * 2 ^ (d - 53)).
    { rewrite <- Z.pow_add_r by lia. f_equal. lia. }
    assert (Hsplit_hi : 2 ^ d = 2 ^ 53 * 2 ^ (d - 53)).
    { rewrite <- Z.pow_add_r by lia. f_equal. lia. }
    assert (Hpos : (0 < IZR (2 ^ (d - 53)))%R) by (apply IZR_lt; lia).
    assert (Wlo : (IZR (2 ^ 52) <= V / IZR (2 ^ (d - 53)))%R).
    { apply Rle_div_r; [exact Hpos | ]. rewrite <- mult_IZR, <- Hsplit_lo.
      eapply Rle_trans; [apply IZR_le, Dlo | exact Vlo]. }
    assert (Whi : (V / IZR (2 ^ (d - 53)) < IZR (2 ^ 53))%R).
    { apply Rlt_div_l; [exact Hpos | ]. rewrite <- mult_IZR, <- Hsplit_hi.
      eapply Rlt_le_trans; [exact Vhi | ]. rewrite <- plus_IZR. apply IZR_le. lia. }
    split.
    + apply Z.lt_succ_r, lt_IZR. rewrite succ_IZR. lra.
    + apply lt_IZR. lra.
Qed.

(** A mantissa of at least 53 digits in the normal range is rounded to a
    53 digit mantissa, within half a unit in the last place. *)
Lemma binary_round_aux_normal (sx : bool) (mx : positive) (ex : Z) (lx : location) (V : R) :
  in_loc (shr_record_of_loc (Z.pos mx) lx) V ->
  53 <= Z.pos (digits2_pos mx) ->
  -1074 <= Z.pos (digits2_pos mx) + ex - 53 ->
  Z.pos (digits2_pos mx) + ex - 53 + 1 <= 971 ->
  exists m e,
    binary_round_aux prec emax sx (Z.pos mx) ex lx = S754_finite sx m e
    /\ 2 ^ 52 <= Z.pos m < 2 ^ 53
    /\ (e = Z.pos (digits2_pos mx) + ex - 53
        \/ e = Z.pos (digits2_pos mx) + ex - 53 + 1 /\ Z.pos m = 2 ^ 52
           /\ (IZR (Z.pos m) * pow2 e - pow2 e / 4 <= V * pow2 ex)%R)
    /\ (V * pow2 ex - pow2 e / 2 <= IZR (Z.pos m) * pow2 e <= V * pow2 ex + pow2 e / 2)%R.
Proof.
  intros HV Hd Hlo Hhi.
  destruct (shr_fexp_normal mx ex lx V HV Hd Hlo) as (mrs & E1 & Hm1 & Hloc).
  set (d := Z.pos (digits2_pos mx)) in *.
  set (e1 := d + ex - 53) in *.
  set (W := (V / IZR (2 ^ (d - 53)))%R) in *.
  destruct (round_nearest_even_loc mrs W Hloc) as [Hm2 Herr].
  unfold binary_round_aux. rewrite E1.
  set (m2 := round_nearest_even (shr_m mrs) (loc_of_shr_record mrs)) in *.
  assert (HVW : (V * pow2 ex = W * pow2 e1)%R).
  { unfold W, e1. replace (d + ex - 53) with ((d - 53) + ex) by lia.
    rewrite pow2_add, (pow2_nonneg_IZR (d - 53)) by lia.
    assert (0 < IZR (2 ^ (d - 53)))%R by (apply IZR_lt; lia).
    field. lra. }
  pose proof (pow2_pos e1) as Hp1.
  destruct (Z.eq_dec m2 (2 ^ 53)) as [Ecarry | Hsmall].
  - rewrite Ecarry, (shr_fexp_exact_carry e1) by (unfold e1; lia).
    cbn [shr_m]. change (2 ^ 52) with (Z.pos 4503599627370496).
    replace (e1 + 1 <=? emax - prec) with true
      by (symmetry; apply Z.leb_le; unfold emax, prec, e1; lia).
    exists 4503599627370496%positive, (e1 + 1).
    rewrite HVW, pow2_succ. rewrite Ecarry in Herr.
    change (IZR (2 ^ 53)) with (2 * IZR (Z.pos 4503599627370496))%R in Herr.
    split; [reflexivity | split; [lia | split; [right; split; [ | split]; [reflexivity .. | ] | ]]];
      nra.
  - rewrite (shr_fexp_exact_small m2 e1) by (unfold e1; lia).
    cbn [shr_m].
    destruct m2 as [| q | q] eqn:Em2; try lia.
    replace (e1 <=? emax - prec) with true
      by (symmetry; apply Z.leb_le; unfold emax, prec, e1; lia).
    exists q, e1. split; [reflexivity | split; [lia | split; [left; reflexivity | ]]].
    rewrite HVW. nra.
Qed.

Lemma iter_xO_pos (k p : positive) :
  Z.pos (Pos.iter xO p k) = Z.pos p * 2 ^ Z.pos k.
Proof.
  induction k as [| k IH] using Pos.peano_ind.
  - cbn [Pos.iter]. rewrite (Pos2Z.inj_xO p). change (2 ^ 1) with 2. lia.
  - rewrite Pos.iter_succ, (Pos2Z.inj_xO (Pos.iter xO p k)), IH.
    rewrite Pos2Z.inj_succ, Z.pow_succ_r by lia. lia.
Qed.

(** A positive integer below 2^53 converts without rounding. *)
Lemma float_of_int_exact (z : Z) :
  0 < z < 2 ^ 53 ->
  exists m e, normal (Py.float_of_int z) m e
              /\ -52 <= e <= 0
              /\ (IZR (Z.pos m) * pow2 e)%R = IZR z.
Proof.
  intros [Hpos Hlt]. destruct z as [| p | p]; try lia.
  pose proof (digits2_pos_bounds p) as [Dlo Dhi].
  set (d := Z.pos (digits2_pos p)) in *.
  assert (Hd : 1 <= d <= 53).
  { split; [unfold d; lia | ].
    destruct (Z.le_gt_cases d 53) as [| Hgt]; [assumption | exfalso].
    assert (2 ^ 53 <= 2 ^ (d - 1)) by (apply Z.pow_le_mono_r; lia). lia. }
  assert (Hal : exists mz, shl_align p 0 (fexp prec emax (d + 0)) = (mz, d - 53)
                           /\ Z.pos mz = Z.pos p * 2 ^ (53 - d)).
  { unfold shl_align, fexp, SpecFloat.emin, prec, emax.
    replace (Z.max (d + 0 - 53) (3 - 1024 - 53) - 0) with (d - 53) by lia.
    destruct (d - 53) as [| k | k] eqn:Ek; try lia.
    - exists p. split; [f_equal | ]. replace (53 - d) with 0 by lia.
      change (2 ^ 0) with 1. lia.
    - exists (Pos.iter xO p k). split.
      + f_equal. lia.
      + rewrite iter_xO_pos. do 2 f_equal. lia. }
  destruct Hal as (mz & Eal & Emz).
  assert (Hmz : 2 ^ 52 <= Z.pos mz < 2 ^ 53).
  { rewrite Emz. split.
    - replace 52 with ((d - 1) + (53 - d)) by lia. rewrite Z.pow_add_r by lia.
      apply Z.mul_le_mono_nonneg_r; lia.
    - replace 53 with (d + (53 - d)) at 2 by lia. rewrite Z.pow_add_r by lia.
      apply Z.mul_lt_mono_pos_r; lia. }
  assert (Hdz : Z.pos (digits2_pos mz) = 53)
    by (apply digits2_pos_unique; change (53 - 1) with 52; exact Hmz).
  destruct (binary_round_aux_normal false mz (d - 53) loc_Exact (IZR (Z.pos mz)))
    as (m & e & Eround & Hm & He & Herr); try (rewrite Hdz; lia).
  { reflexivity. }
  rewrite Hdz in He.
  assert (Hval : (IZR (Z.pos mz) * pow2 (d - 53))%R = IZR (Z.pos p)).
  { rewrite Emz, mult_IZR, <- (pow2_nonneg_IZR (53 - d)), Rmult_assoc, <- pow2_add by lia.
    replace (53 - d + (d - 53)) with 0 by lia. unfold pow2. cbn. lra. }
  assert (Hexact : m = mz /\ e = d - 53).
  { pose proof (pow2_pos (d - 53)) as Hp.
    destruct He as [-> | (-> & Em & Htight)].
    - split; [ | lia].
      assert (Hz : (IZR (Z.pos mz) - 1 < IZR (Z.pos m) < IZR (Z.pos mz) + 1)%R).
      { replace (53 + (d - 53) - 53) with (d - 53) in Herr by lia. nra. }
      destruct Hz as [Hz1 Hz2]. rewrite <- minus_IZR in Hz1. rewrite <- plus_IZR in Hz2.
      apply lt_IZR in Hz1, Hz2. lia.
    - exfalso.
      replace (53 + (d - 53) - 53 + 1) with ((d - 53) + 1) in Herr by lia.
      replace (53 + (d - 53) - 53 + 1) with ((d - 53) + 1) in Htight by lia.
      rewrite pow2_succ, Em in Htight.
      assert (Hz : (IZR (2 ^ 53) - / 2 <= IZR (Z.pos mz))%R).
      { change (IZR (2 ^ 53)) with (2 * IZR (2 ^ 52))%R. nra. }
      assert (IZR (Z.pos mz) <= IZR (2 ^ 53) - 1)%R.
      { rewrite <- minus_IZR. apply IZR_le. lia. }
      lra. }
  destruct Hexact as [-> ->].
  exists mz, (d - 53). split; [ | split; [lia | exact Hval]].
  split; [ | exact Hmz].
  unfold Py.float_of_int. cbn [binary_normalize]. unfold binary_round. fold d.
  rewrite Eal, Eround.
  apply Prim2SF_SF2Prim.
  unfold SpecFloat.valid_binary, SpecFloat.bounded, SpecFloat.canonical_mantissa.
  rewrite Hdz. unfold fexp, SpecFloat.emin, prec, emax.
  apply andb_true_intro. split; [apply Z.eqb_eq | apply Z.leb_le]; lia.
Qed.

Lemma digits2_pos_between (p : positive) (lo hi : Z) :
  0 < lo -> 2 ^ (lo - 1) <= Z.pos p < 2 ^ hi ->
  lo <= Z.pos (digits2_pos p) <= hi.
Proof.
  intros Hlo0 [Hlo Hhi]. pose proof (digits2_pos_bounds p) as [Dlo Dhi].
  assert (0 <= hi).
  { destruct (Z.le_gt_cases 0 hi) as [| Hneg]; [assumption | ].
    rewrite Z.pow_neg_r in Hhi by lia. lia. }
  assert (lo - 1 < Z.pos (digits2_pos p)) by (apply (Z.pow_lt_mono_r_iff 2); lia).
  assert (Z.pos (digits2_pos p) - 1 < hi) by (apply (Z.pow_lt_mono_r_iff 2); lia).
  lia.
Qed.

Lemma ratio_half (k nb t : R) :
  (0 < nb -> t * nb = k ->
   (2 * k = nb -> t = / 2)
   /\ (2 * k < nb -> t < / 2)
   /\ (nb < 2 * k -> / 2 < t)
   /\ (0 < k -> 0 < t)
   /\ (k < nb -> t < 1))%R.
Proof.
  intros Hnb Ht. repeat split; intros H.
  - apply (Rmult_eq_reg_r nb); lra.
  - apply (Rmult_lt_reg_r nb); lra.
  - apply (Rmult_lt_reg_r nb); lra.
  - apply (Rmult_lt_reg_r nb); lra.
  - apply (Rmult_lt_reg_r nb); lra.
Qed.

(** The location computed from a remainder tells where the exact quotient
    lies. *)
Lemma new_location_loc (q nb k : Z) :
  0 < nb -> 0 <= k < nb ->
  in_loc (shr_record_of_loc q (new_location nb k)) (IZR q + IZR k / IZR nb).
Proof.
  intros Hnb [Hk0 Hk].
  assert (Hnb' : (0 < IZR nb)%R) by (apply IZR_lt; lia).
  set (t := (IZR k / IZR nb)%R).
  assert (Ht : (t * IZR nb = IZR k)%R) by (unfold t; field; lra).
  destruct (ratio_half (IZR k) (IZR nb) t Hnb' Ht) as (Heq & Hlt & Hgt & Hpos & Hone).
  assert (Hk' : (IZR k < IZR nb)%R) by (apply IZR_lt; lia).
  specialize (Hone Hk').
  unfold new_location.
  destruct (Z.even nb) eqn:Heven; [unfold new_location_even | unfold new_location_odd];
    (destruct (Z.eqb_spec k 0) as [E0 | Hne];
     [ assert (t = 0)%R by (unfold t; rewrite E0; field; lra);
       unfold in_loc; cbn; lra | ]).
  - assert (Hkpos : (0 < IZR k)%R) by (apply IZR_lt; lia).
    specialize (Hpos Hkpos).
    destruct (Z.compare_spec (2 * k) nb) as [E | L | G]; unfold in_loc; cbn.
    + apply (f_equal IZR) in E. rewrite mult_IZR in E. specialize (Heq E). lra.
    + apply IZR_lt in L. rewrite mult_IZR in L. specialize (Hlt L). lra.
    + apply IZR_lt in G. rewrite mult_IZR in G. specialize (Hgt G). lra.
  - assert (Hkpos : (0 < IZR k)%R) by (apply IZR_lt; lia).
    specialize (Hpos Hkpos).
    assert (Hodd : 2 * k <> nb).
    { intros <-. rewrite Z.even_mul in Heven. discriminate Heven. }
    destruct (Z.compare_spec (2 * k + 1) nb) as [E | L | G]; unfold in_loc; cbn.
    + assert (L : 2 * k < nb) by lia.
      apply IZR_lt in L. rewrite mult_IZR in L. specialize (Hlt L). lra.
    + assert (L' : 2 * k < nb) by lia.
      apply IZR_lt in L'. rewrite mult_IZR in L'. specialize (Hlt L'). lra.
    + assert (G' : nb < 2 * k) by lia.
      apply IZR_lt in G'. rewrite mult_IZR in G'. specialize (Hgt G'). lra.
Qed.

Lemma value_ulp (m : positive) (e : Z) :
  2 ^ 52 <= Z.pos m -> (pow2 e * 4503599627370496 <= value m e)%R.
Proof.
  intros Hm. unfold value. pose proof (pow2_pos e).
  assert (4503599627370496 <= IZR (Z.pos m))%R by (apply IZR_le in Hm; exact Hm).
  nra.
Qed.

(** Division of normal floats: the quotient is normal and within half a
    unit in the last place of the exact quotient. *)
Lemma div_normal (x y : float) (mx : positive) (ex : Z) (my : positive) (ey : Z) :
  normal x mx ex -> normal y my ey -> -1000 <= ex - ey <= 900 ->
  exists m e,
    normal (x / y)%float m e
    /\ ex - ey - 53 <= e <= ex - ey - 51
    /\ (value mx ex / value my ey - pow2 e / 2 <= value m e
        <= value mx ex / value my ey + pow2 e / 2)%R.
Proof.
  intros [Ex Hmx] [Ey Hmy] Hrange.
  assert (Hdx : Z.pos (digits2_pos mx) = 53)
    by (apply digits2_pos_unique; change (53 - 1) with 52; exact Hmx).
  assert (Hdy : Z.pos (digits2_pos my) = 53)
    by (apply digits2_pos_unique; change (53 - 1) with 52; exact Hmy).
  pose proof (Z_div_mod (Z.pos mx * 2 ^ 53) (Z.pos my) eq_refl) as Hdm.
  destruct (Z.div_eucl (Z.pos mx * 2 ^ 53) (Z.pos my)) as [q r] eqn:Edm.
  destruct Hdm as [Hq Hr].
  assert (Hcore : SFdiv_core_binary prec emax (Z.pos mx) ex (Z.pos my) ey
                  = (q, ex - ey - 53, new_location (Z.pos my) r)).
  { unfold SFdiv_core_binary. cbn [Zdigits2]. rewrite Hdx, Hdy.
    unfold fexp, SpecFloat.emin, prec, emax.
    replace (Z.min (Z.max (53 + ex - (53 + ey) - 53) (3 - 1024 - 53)) (ex - ey))
      with (ex - ey - 53) by lia.
    replace (ex - ey - (ex - ey - 53)) with 53 by lia.
    rewrite Z.shiftl_mul_pow2 by lia. rewrite Edm. reflexivity. }
  assert (Hqb : 2 ^ 52 <= q < 2 ^ 54).
  { assert (Hpow : 2 ^ 53 * 2 ^ 53 = 2 ^ 54 * 2 ^ 52) by reflexivity.
    split.
    - destruct (Z.le_gt_cases (2 ^ 52) q) as [| Hlt]; [assumption | exfalso].
      assert (Z.pos my * q + r < Z.pos my * 2 ^ 52) by nia.
      assert (2 ^ 52 * 2 ^ 53 <= Z.pos mx * 2 ^ 53) by nia.
      nia.
    - destruct (Z.le_gt_cases (2 ^ 54) q) as [Hge | ]; [exfalso | assumption].
      assert (Z.pos my * 2 ^ 54 <= Z.pos my * q) by nia.
      assert (Z.pos mx * 2 ^ 53 < 2 ^ 53 * 2 ^ 53) by nia.
      nia. }
  destruct q as [| q | q]; try lia.
  assert (Hdq : 53 <= Z.pos (digits2_pos q) <= 54).
  { apply digits2_pos_between; [lia | ]. change (53 - 1) with 52. exact Hqb. }
  set (V := (IZR (Z.pos q) + IZR r / IZR (Z.pos my))%R).
  destruct (binary_round_aux_normal false q (ex - ey - 53) (new_location (Z.pos my) r) V)
    as (m & e & Eround & Hm & He & Herr); try lia.
  { apply new_location_loc; lia. }
  exists m, e. split; [split; [ | exact Hm] | split; [lia | ]].
  - rewrite FloatAxioms.div_spec, Ex, Ey.
    unfold SF64div, SFdiv. rewrite Hcore. exact Eround.
  - assert (HV : (V * pow2 (ex - ey - 53) = value mx ex / value my ey)%R).
    { unfold V, value.
      assert (Hy : (0 < IZR (Z.pos my))%R) by (apply IZR_lt; lia).
      pose proof (pow2_pos ex). pose proof (pow2_pos ey).
      replace (ex - ey - 53) with (ex + (- ey + - 53)) by lia.
      rewrite !pow2_add.
      assert (E1 : (pow2 (- ey) * pow2 ey = 1)%R).
      { rewrite <- pow2_add. replace (- ey + ey) with 0 by lia. reflexivity. }
      assert (E2 : (pow2 (- 53) * IZR (2 ^ 53) = 1)%R).
      { rewrite <- (pow2_nonneg_IZR 53), <- pow2_add by lia. reflexivity. }
      assert (E3 : (IZR (Z.pos q) * IZR (Z.pos my) + IZR r = IZR (Z.pos mx) * IZR (2 ^ 53))%R).
      { rewrite <- !mult_IZR, <- plus_IZR. f_equal. lia. }
      assert (Hinv : (pow2 (- ey) = / pow2 ey)%R).
      { apply (Rmult_eq_reg_r (pow2 ey)); [ | lra]. rewrite E1. field. lra. }
      rewrite Hinv.
      apply (Rmult_eq_reg_r (IZR (2 ^ 53))); [ | apply Rgt_not_eq, IZR_lt; lia].
      transitivity ((IZR (Z.pos q) * IZR (Z.pos my) + IZR r) / IZR (Z.pos my)
                    * pow2 ex / pow2 ey * (pow2 (-53) * IZR (2 ^ 53)))%R.
      { field. lra. }
      rewrite E2, E3. field. lra. }
    rewrite <- HV. exact Herr.
Qed.

(** Product of normal floats: normal again and within half a unit in the
    last place of the exact product. *)
Lemma mul_normal (x y : float) (mx : positive) (ex : Z) (my : positive) (ey : Z) :
  normal x mx ex -> normal y my ey -> -1000 <= ex + ey <= 900 ->
  exists m e,
    normal (x * y)%float m e
    /\ (value mx ex * value my ey - pow2 e / 2 <= value m e
        <= value mx ex * value my ey + pow2 e / 2)%R.
Proof.
  intros [Ex Hmx] [Ey Hmy] Hrange.
  assert (Hpb : 2 ^ 104 <= Z.pos (mx * my) < 2 ^ 106).
  { rewrite Pos2Z.inj_mul.
    change (2 ^ 104) with (2 ^ 52 * 2 ^ 52). change (2 ^ 106) with (2 ^ 53 * 2 ^ 53).
    split; [apply Z.mul_le_mono_nonneg | apply Z.mul_lt_mono_nonneg]; lia. }
  assert (Hdp : 105 <= Z.pos (digits2_pos (mx * my)) <= 106).
  { apply digits2_pos_between; [lia | ]. change (105 - 1) with 104. exact Hpb. }
  destruct (binary_round_aux_normal false (mx * my) (ex + ey) loc_Exact
              (IZR (Z.pos (mx * my))))
    as (m & e & Eround & Hm & He & Herr); try lia.
  { reflexivity. }
  exists m, e. split; [split; [ | exact Hm] | ].
  - rewrite FloatAxioms.mul_spec, Ex, Ey. exact Eround.
  - assert (HV : (IZR (Z.pos (mx * my)) * pow2 (ex + ey)
                  = value mx ex * value my ey)%R).
    { unfold value. rewrite Pos2Z.inj_mul, mult_IZR, pow2_add. ring. }
    rewrite <- HV. exact Herr.
Qed.

(** The fixed-point conversion is within one half of the scaled value. *)
Lemma scaled_1_near (m : positive) (e : Z) :
  (10 * value m e - / 2 <= IZR (Py.scaled 1 m e) <= 10 * value m e + / 2)%R.
Proof.
  unfold Py.scaled, value. change (10 ^ Z.of_nat 1) with 10.
  destruct (Z.leb_spec 0 e) as [He | He].
  - rewrite !mult_IZR, <- (pow2_nonneg_IZR e He). lra.
  - set (d := 2 ^ (- e)).
    assert (Hd : 0 < d) by (unfold d; lia).
    assert (Hd' : (0 < IZR d)%R) by (apply IZR_lt; exact Hd).
    pose proof (Z.div_mod (10 * Z.pos m) d ltac:(lia)) as Hdm.
    pose proof (Z.mod_pos_bound (10 * Z.pos m) d Hd) as [Hr0 Hr].
    set (q := 10 * Z.pos m / d) in *. set (r := (10 * Z.pos m) mod d) in *.
    assert (Hpow : (pow2 e * IZR d = 1)%R).
    { unfold d. rewrite <- (pow2_nonneg_IZR (- e)), <- pow2_add by lia.
      replace (e + - e) with 0 by lia. reflexivity. }
    set (t := (IZR r / IZR d)%R).
    assert (Ht : (t * IZR d = IZR r)%R) by (unfold t; field; lra).
    destruct (ratio_half (IZR r) (IZR d) t Hd' Ht) as (Heq & Hlt & Hgt & _ & Hone).
    assert (Ht0 : (0 <= t)%R).
    { apply (Rmult_le_reg_r (IZR d)); [exact Hd' | ]. rewrite Ht, Rmult_0_l.
      apply IZR_le. exact Hr0. }
    assert (Hval : (10 * (IZR (Z.pos m) * pow2 e) = IZR q + t)%R).
    { apply (Rmult_eq_reg_r (IZR d)); [ | lra].
      transitivity (10 * IZR (Z.pos m) * (pow2 e * IZR d))%R; [ring | ].
      rewrite Hpow, Rmult_plus_distr_r, Ht, <- (mult_IZR 10), Hdm.
      rewrite plus_IZR, mult_IZR. ring. }
    rewrite Hval.
    specialize (Hone ltac:(apply IZR_lt; exact Hr)).
    destruct (Z.compare_spec (2 * r) d) as [E | L | G].
    + apply (f_equal IZR) in E. rewrite mult_IZR in E. specialize (Heq E).
      destruct (Z.even q); rewrite ?plus_IZR; lra.
    + apply IZR_lt in L. rewrite mult_IZR in L. specialize (Hlt L). lra.
    + apply IZR_lt in G. rewrite mult_IZR in G. specialize (Hgt G).
      rewrite plus_IZR. lra.
Qed.

Lemma value_100 : normal 100%float 7036874417766400 (-46)
                  /\ value 7036874417766400 (-46) = 100%R.
Proof.
  split; [split; [reflexivity | lia] | ].
  unfold value. change (Z.pos 7036874417766400) with (100 * 2 ^ 46).
  rewrite mult_IZR, Rmult_assoc, <- (pow2_nonneg_IZR 46), <- pow2_add by lia.
  change (46 + -46) with 0. unfold pow2. cbn. lra.
Qed.

(** The percentage of [count] in [len], as the summary computes it, is a
    normal float whose one-decimal presentation is within one tenth of the
    exact share. *)
Lemma percentage_near (count len : nat) :
  (0 < count <= len)%nat -> Z.of_nat len < 2 ^ 53 ->
  exists m e,
    Prim2SF (percentage count len) = S754_finite false m e
    /\ 2 ^ 41 * Z.abs (Py.scaled 1 m e * Z.of_nat len - 1000 * Z.of_nat count)
       <= (2 ^ 40 + 2) * Z.of_nat len.
Proof.
  intros [Hc Hcl] Hlen.
  destruct (float_of_int_exact (Z.of_nat count)) as (mc & ec & Nc & Hec & Vc); [lia | ].
  destruct (float_of_int_exact (Z.of_nat len)) as (ml & el & Nl & Hel & Vl); [lia | ].
  destruct (div_normal _ _ _ _ _ _ Nc Nl) as (mq & eq & Nq & Heq & Hq); [lia | ].
  destruct value_100 as [N100 V100].
  destruct (mul_normal _ _ _ _ _ _ Nq N100) as (mp & ep & Np & Hp); [lia | ].
  exists mp, ep. split; [exact (proj1 Np) | ].
  fold (value mc ec) in Vc. fold (value ml el) in Vl.
  rewrite Vc, Vl in Hq. rewrite V100 in Hp.
  pose proof (value_ulp mq eq (proj1 (proj2 Nq))) as Uq.
  pose proof (value_ulp mp ep (proj1 (proj2 Np))) as Up.
  pose proof (pow2_pos eq) as Pq. pose proof (pow2_pos ep) as Pp.
  pose proof (scaled_1_near mp ep) as Hs.
  set (N := Py.scaled 1 mp ep) in *.
  set (c := Z.of_nat count) in *. set (n := Z.of_nat len) in *.
  assert (Hn : (0 < IZR n)%R) by (apply IZR_lt; lia).
  assert (Hcn : (0 < IZR c <= IZR n)%R) by (split; [apply IZR_lt | apply IZR_le]; lia).
  set (x := (IZR c / IZR n)%R) in *.
  assert (Hx : (x * IZR n = IZR c)%R) by (unfold x; field; lra).
  assert (Hx1 : (0 < x <= 1)%R).
  { split; apply (Rmult_lt_reg_r (IZR n)) || apply (Rmult_le_reg_r (IZR n)); lra. }
  assert (Hnear : (1000 * x - (/ 2 + / 1099511627776) <= IZR N
                  <= 1000 * x + (/ 2 + / 1099511627776))%R) by lra.
  assert (Hz : (IZR (2 ^ 41 * (N * n - 1000 * c)) <= IZR ((2 ^ 40 + 2) * n)
               /\ IZR (- ((2 ^ 40 + 2) * n)) <= IZR (2 ^ 41 * (N * n - 1000 * c)))%R).
  { rewrite opp_IZR, !mult_IZR, minus_IZR, !mult_IZR, <- Hx.
    change (IZR (2 ^ 41)) with 2199023255552%R.
    change (IZR (2 ^ 40 + 2)) with 1099511627778%R.
    split; nra. }
  destruct Hz as [Hz1 Hz2]. apply le_IZR in Hz1, Hz2. lia.
Qed.

End FloatFacts.

(** ** The reference table and the exported rows *)

(** A later row of the reference workbook replaces an earlier one with the
    same ID. *)
Lemma load_native_last_wins (rows : list NativeRow) (row : NativeRow) :
  load_native_rows (rows ++ [row]) !! row_ID row
  = Some {| native_hours := row_Duracion_horas row; native_name := row_Nombre row |}.
Proof.
  unfold load_native_rows. rewrite fold_left_app. cbn [fold_left].
  apply lookup_insert_eq.
Qed.

(** An unreadable workbook leaves every task without reference. *)
Lemma load_native_unreadable (task_id : Z) : load_native None !! task_id = None.
Proof. apply lookup_empty. Qed.

(** The row of a task carries the locals of the correction cascade. *)
Lemma task_data_columns (native_data : gmap Z NativeEntry) (task : Task) (row : TaskRow) :
  task_data native_data task = Some row ->
  ID row = task_id_of task
  /\ Duration_Original row = mpxj_duration_str (correct_task native_data task)
  /\ Duration_MPXJ_Hours row = mpxj_hours (correct_task native_data task)
  /\ Duration_Corrected row = corrected_duration_str (correct_task native_data task)
  /\ Duration_Corrected_Hours row = corrected_hours (correct_task native_data task)
  /\ Duration_Source row = duration_source (correct_task native_data task)
  /\ format_predecessors (getPredecessors task) = Some (Predecessors row).
Proof.
  unfold task_data.
  destruct (format_predecessors (getPredecessors task)) as [predecessors |];
    cbn; intros [= <-]; cbn; auto 10.
Qed.

(** Every row read comes from a task of the project. *)
Lemma read_tasks_rows (native_data : gmap Z NativeEntry) (tasks : list (option Task)) :
  forall rows, read_tasks native_data tasks = Some rows ->
  Forall (fun row => exists task, In (Some task) tasks
                                  /\ task_data native_data task = Some row) rows.
Proof.
  induction tasks as [| [task |] tasks IH]; cbn [read_tasks]; intros rows Hrows.
  - injection Hrows as <-. constructor.
  - destruct (task_data native_data task) as [row |] eqn:Hrow; [ | discriminate Hrows].
    destruct (read_tasks native_data tasks) as [rest |]; [ | discriminate Hrows].
    cbn in Hrows. injection Hrows as <-. constructor.
    + exists task. split; [left; reflexivity | exact Hrow].
    + eapply List.Forall_impl; [ | exact (IH rest eq_refl)].
      cbn. intros row' (task' & Hin & Hrow'). exists task'. split; [right | ]; assumption.
  - eapply List.Forall_impl; [ | exact (IH rows Hrows)].
    cbn. intros row' (task' & Hin & Hrow'). exists task'. split; [right | ]; assumption.
Qed.

(** ** The tag read from a source text *)


Lemma tag_of_suspect_source (f : string) :
  tag_of_source ("Nativo (factor " ++ f ++ "x)") = Some ReferenceAcceptedSuspectFactor.
Proof. destruct f; vm_compute; reflexivity. Qed.


Lemma tag_of_MPXJ : tag_of_source "MPXJ" = Some RawAccepted.
Proof. vm_compute. reflexivity. Qed.

Lemma tag_of_x24 : tag_of_source "MPXJ corregido (x24)" = Some RawAcceptedScaled24x.
Proof. vm_compute. reflexivity. Qed.

Lemma tag_of_corregido : tag_of_source "Nativo (corregido)" = Some ReferenceAcceptedDayUnitFix.
Proof. vm_compute. reflexivity. Qed.

Lemma tag_of_validado : tag_of_source "MPXJ (validado)" = Some RawValidatedByReference.
Proof. vm_compute. reflexivity. Qed.

Lemma tag_of_raw_zero : tag_of_source "Nativo (MPXJ=0)" = Some ReferenceAcceptedRawZero.
Proof. vm_compute. reflexivity. Qed.

Create Rewrite HintDb tags.
#[local] Hint Rewrite tag_of_MPXJ tag_of_x24 tag_of_corregido tag_of_validado
  tag_of_raw_zero tag_of_suspect_source : tags.



(** ** The correction cascade, branch by branch *)

Section Cascade.

Variable native_data : gmap Z NativeEntry.
Variable task_id : Z.
Variable raw_str : string.
Variable raw_hours : float.

#[local] Abbreviation r := (correct_duration native_data task_id raw_str raw_hours).

(** C1. A reference is present, the raw hours are positive and the ratio
    reference / raw lies within 20..28: the reference hours are accepted,
    the source text is the one of [ReferenceAcceptedDayUnitFix], and the
    display text is the reference value with one decimal followed by
    'h'. *)
Theorem day_unit_fix_accepts_reference (ref : NativeEntry) :
  native_data !! task_id = Some ref ->
  (0 <? raw_hours)%float = true ->
  (20 <=? native_hours ref / raw_hours)%float = true ->
  (native_hours ref / raw_hours <=? 28)%float = true ->
  corrected_hours r = native_hours ref
  /\ duration_source r = "Nativo (corregido)"
  /\ tag r = Some ReferenceAcceptedDayUnitFix
  /\ corrected_duration_str r = Py.format_1f (native_hours ref) ++ "h"
  /\ (forall previous,
        factor native_data task_id raw_hours previous
        = Some (native_hours ref / raw_hours)%float).
Proof.
  intros Href Hpos Hlo Hhi.
  unfold tag, correct_duration, factor.
  rewrite Href, Hpos, Hlo, Hhi. cbn. auto.
Qed.

(** C2. A reference is present, the raw hours are positive and the ratio
    lies within 0.8..1.2: the raw hours and the raw display text are
    kept, with the source text of [RawValidatedByReference]. *)
Theorem validated_keeps_raw (ref : NativeEntry) :
  native_data !! task_id = Some ref ->
  (0 <? raw_hours)%float = true ->
  (0.8 <=? native_hours ref / raw_hours)%float = true ->
  (native_hours ref / raw_hours <=? 1.2)%float = true ->
  corrected_hours r = raw_hours
  /\ duration_source r = "MPXJ (validado)"
  /\ tag r = Some RawValidatedByReference
  /\ corrected_duration_str r = raw_str
  /\ (forall previous,
        factor native_data task_id raw_hours previous
        = Some (native_hours ref / raw_hours)%float).
Proof.
  intros Href Hpos Hlo Hhi.
  unfold tag, correct_duration, factor.
  rewrite Href, Hpos, Hlo, Hhi.
  destruct (20 <=? native_hours ref / raw_hours)%float eqn:Hday.
  - destruct (FloatFacts.bands_disjoint _ Hday Hhi).
  - cbn. auto.
Qed.

(** C3. A reference is present, the raw hours are positive and the ratio
    lies in neither band: the reference hours are accepted, and the
    source text is 'Nativo (factor Fx)' with F the ratio in the one
    decimal presentation, which is the text of
    [ReferenceAcceptedSuspectFactor]. *)
Theorem suspect_factor_accepts_reference (ref : NativeEntry) :
  native_data !! task_id = Some ref ->
  (0 <? raw_hours)%float = true ->
  (20 <=? native_hours ref / raw_hours)%float
    && (native_hours ref / raw_hours <=? 28)%float = false ->
  (0.8 <=? native_hours ref / raw_hours)%float
    && (native_hours ref / raw_hours <=? 1.2)%float = false ->
  corrected_hours r = native_hours ref
  /\ duration_source r
     = "Nativo (factor " ++ Py.format_1f (native_hours ref / raw_hours) ++ "x)"
  /\ tag r = Some ReferenceAcceptedSuspectFactor
  /\ (forall previous,
        factor native_data task_id raw_hours previous
        = Some (native_hours ref / raw_hours)%float).
Proof.
  intros Href Hpos Hday Hunit.
  unfold tag, correct_duration, factor.
  rewrite Href, Hpos, Hday, Hunit. cbn.
  rewrite tag_of_suspect_source. auto.
Qed.

(** C4. A reference is present and the raw hours are zero: the reference
    hours are accepted whatever their size, with the source text of
    [ReferenceAcceptedRawZero]. *)
Theorem raw_zero_accepts_reference (ref : NativeEntry) :
  native_data !! task_id = Some ref ->
  (raw_hours =? 0)%float = true ->
  corrected_hours r = native_hours ref
  /\ duration_source r = "Nativo (MPXJ=0)"
  /\ tag r = Some ReferenceAcceptedRawZero.
Proof.
  intros Href Hzero.
  unfold tag, correct_duration.
  rewrite Href, (FloatFacts.eqb_zero_not_ltb _ Hzero). cbn. auto.
Qed.

(** C5. No reference is present.  When the raw text carries the elapsed
    hours unit 'eh' and the raw hours are below 100, the corrected hours
    are the raw hours times 24 with the source text of
    [RawAcceptedScaled24x]; in every other case the raw hours and the raw
    display text pass through with the source text of [RawAccepted]. *)
Theorem no_reference_scales_or_passes :
  native_data !! task_id = None ->
  (Py.contains "eh" raw_str = true -> (raw_hours <? 100)%float = true ->
     corrected_hours r = (raw_hours * 24)%float
     /\ duration_source r = "MPXJ corregido (x24)"
     /\ tag r = Some RawAcceptedScaled24x)
  /\ (Py.contains "eh" raw_str && (raw_hours <? 100)%float = false ->
     corrected_hours r = raw_hours
     /\ corrected_duration_str r = raw_str
     /\ duration_source r = "MPXJ"
     /\ tag r = Some RawAccepted).
Proof.
  intros Href. unfold tag, correct_duration. rewrite Href.
  split.
  - intros -> ->. cbn. auto.
  - intros ->. cbn. auto.
Qed.


End Cascade.

(** Task 7 read as '10.0eh' with 240 reference hours: ratio 24. *)
Lemma day_unit_fix_accepts_reference_witness :
  corrected_hours (correct_duration (reference_for_7 240) 7 "10.0eh" 10)
    = 240%float
  /\ duration_source (correct_duration (reference_for_7 240) 7 "10.0eh" 10)
    = "Nativo (corregido)".
Proof.
  pose proof (day_unit_fix_accepts_reference
                (reference_for_7 240)
                7 "10.0eh" 10 {| native_hours := 240; native_name := "Excavacion" |})
    as W.
  destruct W as (H1 & H2 & _); try (vm_compute; reflexivity).
  split; [exact H1 | exact H2].
Defined.

(** Task 7 read as '32.0d' (768 hours) with 750 reference hours. *)
Lemma validated_keeps_raw_witness :
  corrected_hours (correct_duration (reference_for_7 750) 7 "32.0d" 768)
    = 768%float
  /\ corrected_duration_str (correct_duration (reference_for_7 750) 7 "32.0d" 768)
    = "32.0d".
Proof.
  pose proof (validated_keeps_raw
                (reference_for_7 750)
                7 "32.0d" 768 {| native_hours := 750; native_name := "Excavacion" |})
    as W.
  destruct W as (H1 & _ & _ & H2 & _); try (vm_compute; reflexivity).
  split; [exact H1 | exact H2].
Defined.

(** Task 7 read as '10.0eh' with 34 reference hours: 'factor 3.4x'. *)
Lemma suspect_factor_accepts_reference_witness :
  corrected_hours (correct_duration (reference_for_7 34) 7 "10.0eh" 10)
    = 34%float
  /\ duration_source (correct_duration (reference_for_7 34) 7 "10.0eh" 10)
    = "Nativo (factor 3.4x)".
Proof.
  pose proof (suspect_factor_accepts_reference
                (reference_for_7 34)
                7 "10.0eh" 10 {| native_hours := 34; native_name := "Excavacion" |})
    as W.
  destruct W as (H1 & H2 & _); try (vm_compute; reflexivity).
  split; [exact H1 | rewrite H2; vm_compute; reflexivity].
Defined.

(** Task 7 read as '40.0h' (no hours recognised) with 320 reference hours. *)
Lemma raw_zero_accepts_reference_witness :
  corrected_hours (correct_duration (reference_for_7 320) 7 "40.0h" 0)
    = 320%float
  /\ tag (correct_duration (reference_for_7 320) 7 "40.0h" 0)
    = Some ReferenceAcceptedRawZero.
Proof.
  pose proof (raw_zero_accepts_reference
                (reference_for_7 320)
                7 "40.0h" 0 {| native_hours := 320; native_name := "Excavacion" |})
    as W.
  destruct W as (H1 & _ & H2); try (vm_compute; reflexivity).
  split; [exact H1 | exact H2].
Defined.

(** Without reference: '40.0eh' is scaled to 960 hours, '5.0d' (120 hours)
    passes through. *)
Lemma no_reference_scales_or_passes_witness :
  corrected_hours (correct_duration ∅ 7 "40.0eh" 40) = (40 * 24)%float
  /\ corrected_hours (correct_duration ∅ 7 "5.0d" 120) = 120%float.
Proof.
  split.
  - apply (no_reference_scales_or_passes ∅ 7 "40.0eh" 40);
      vm_compute; reflexivity.
  - apply (no_reference_scales_or_passes ∅ 7 "5.0d" 120);
      vm_compute; reflexivity.
Defined.


(** The rows of [read_tasks_factor] are those of [read_tasks]. *)
Lemma read_tasks_factor_rows (native_data : gmap Z NativeEntry) (tasks : list (option Task)) :
  forall previous,
    map fst <$> read_tasks_factor native_data tasks previous = read_tasks native_data tasks.
Proof.
  induction tasks as [| [task |] tasks IH]; intros previous;
    cbn [read_tasks_factor read_tasks].
  - reflexivity.
  - destruct (task_data native_data task) as [row |]; [ | reflexivity].
    cbn. rewrite <- (IH (factor native_data (task_id_of task)
                                (mpxj_hours_of (Task_getDuration task)) previous)).
    destruct (read_tasks_factor native_data tasks _); reflexivity.
  - apply IH.
Qed.


(** ** Durations in units the converter does not read *)

(** C10. A duration text with neither 'eh' nor 'd' in it gives 0 raw hours.
    With a reference entry the reference hours are accepted under the
    source text of [ReferenceAcceptedRawZero]; without one the record
    passes through with 0 corrected hours. *)
Theorem other_units_read_as_zero (native_data : gmap Z NativeEntry) (task : Task) :
  Py.contains "eh" (duration_str_of (Task_getDuration task)) = false ->
  Py.contains "d" (duration_str_of (Task_getDuration task)) = false ->
  mpxj_hours (correct_task native_data task) = 0%float
  /\ (forall ref, native_data !! task_id_of task = Some ref ->
        corrected_hours (correct_task native_data task) = native_hours ref
        /\ tag (correct_task native_data task) = Some ReferenceAcceptedRawZero)
  /\ (native_data !! task_id_of task = None ->
        corrected_hours (correct_task native_data task) = 0%float
        /\ corrected_duration_str (correct_task native_data task)
           = duration_str_of (Task_getDuration task)
        /\ tag (correct_task native_data task) = Some RawAccepted).
Proof.
  intros Heh Hd.
  assert (Hzero : mpxj_hours_of (Task_getDuration task) = 0%float).
  { unfold mpxj_hours_of. destruct (Task_getDuration task) as [d |]; [ | reflexivity].
    cbn in Heh, Hd. rewrite Heh, Hd. reflexivity. }
  unfold correct_task, tag, correct_duration. rewrite Hzero, Heh.
  split; [ | split].
  - destruct (native_data !! task_id_of task); reflexivity.
  - intros ref ->. cbn. auto.
  - intros ->. cbn. auto.
Qed.

(** Task 7 with a duration of 40 working hours, 320 reference hours. *)
Lemma other_units_read_as_zero_witness :
  mpxj_hours
    (correct_task (reference_for_7 320)
       {| getID := Some 7;
          Task_getDuration := Some {| getDuration := 40; Duration_str := "40.0h" |};
          getStart := None; getFinish := None; getPredecessors := None |})
  = 0%float.
Proof.
  apply (other_units_read_as_zero
           (reference_for_7 320)
           {| getID := Some 7;
              Task_getDuration := Some {| getDuration := 40; Duration_str := "40.0h" |};
              getStart := None; getFinish := None; getPredecessors := None |});
    vm_compute; reflexivity.
Defined.

(** ** The row filter of the visualizer *)

(** C9, as the code has it.  The rows kept for the timeline are exactly
    those with both a Start and a Finish value; a row lacking either one is
    left out. *)
Theorem filter_dated_keeps_rows_with_both (df : list GanttRow) (row : GanttRow) :
  In row (filter_dated df)
  <-> In row df /\ Gantt_Start row <> None /\ Gantt_Finish row <> None.
Proof.
  unfold filter_dated. rewrite filter_In, andb_true_iff.
  destruct (Gantt_Start row), (Gantt_Finish row); cbn; intuition congruence.
Qed.

(** Against C9 in its wording "a row with at least one of Start or Finish
    is retained": a row with a Start and no Finish value has one of the
    two, and it is left out. *)
Lemma start_only_row_is_excluded :
  ~ (forall (df : list GanttRow) (row : GanttRow),
       In row df ->
       (Gantt_Start row <> None \/ Gantt_Finish row <> None) ->
       In row (filter_dated df)).
Proof.
  intros H.
  assert (Hin : In start_only_row (filter_dated [start_only_row])).
  { apply H; [left; reflexivity | left; discriminate]. }
  exact Hin.
Qed.

(** ** The predecessor notation *)

Lemma is_finite_int (x : float) :
  is_finite x = true -> Py.int x = Some (default 0 (Py.int x)).
Proof.
  unfold is_finite, Py.int.
  destruct (Prim2SF x); intros H; try discriminate H; reflexivity.
Qed.

Lemma relation_token_spec (r : Spec.Relation) :
  is_finite (Spec.lagValue r) = true ->
  relation_token (mpxj_relation r) = Some (Spec.token r).
Proof.
  intros Hfin.
  unfold relation_token, Spec.token, lag_str_of, Spec.lagToken, Spec.integer_lag.
  cbn [mpxj_relation getPredecessorTask getType getLag Lag_getDuration Lag_getUnits].
  rewrite (is_finite_int _ Hfin).
  assert (Hid : task_id_str
                  match Spec.predecessorTaskId r with
                  | Some i => Some {| PredecessorTask_getID := Some i |}
                  | None => None
                  end = Spec.id_text r).
  { unfold Spec.id_text. destruct (Spec.predecessorTaskId r); reflexivity. }
  assert (Hty : match Spec.type r with
                | Some t => RelationType_str t
                | None => "FS"
                end = Spec.type_text r).
  { unfold Spec.type_text. destruct (Spec.type r); reflexivity. }
  rewrite Hid, Hty.
  destruct (Spec.lagValue r =? 0)%float; cbn; [reflexivity | ].
  destruct (0 <? Spec.lagValue r)%float; reflexivity.
Qed.

Lemma mapM_relation_token (relations : list Spec.Relation) :
  Forall (fun r => is_finite (Spec.lagValue r) = true) relations ->
  mapM relation_token (map mpxj_relation relations) = Some (map Spec.token relations).
Proof.
  intros Hfin. apply mapM_Some_2.
  induction Hfin as [| r rs Hr _ IH]; cbn [map]; constructor.
  - apply relation_token_spec, Hr.
  - exact IH.
Qed.

(** C7. For relations with lag values of finite size, the formatter gives
    one token id-type-lag per relation, joined by '; ': the identifier or
    'Unknown', the type or 'FS', and for a lag other than 0 the integer lag
    value, with '+' when positive, followed by the unit.  No relation gives
    the empty text; the examples give '5SS+2d', '5FS' and 'UnknownFS'. *)
Theorem format_predecessors_notation (relations : list Spec.Relation) :
  Forall (fun r => is_finite (Spec.lagValue r) = true) relations ->
  format_predecessors (Some (map mpxj_relation relations))
    = Some (Spec.formatRelations relations)
  /\ format_predecessors (Some []) = Some ""
  /\ format_predecessors
       (Some [mpxj_relation {| Spec.predecessorTaskId := Some 5; Spec.type := Some SS;
                               Spec.lagValue := 2; Spec.lagUnit := "d" |}])
     = Some "5SS+2d"
  /\ format_predecessors
       (Some [mpxj_relation {| Spec.predecessorTaskId := Some 5; Spec.type := Some FS;
                               Spec.lagValue := 0; Spec.lagUnit := "d" |}])
     = Some "5FS"
  /\ format_predecessors
       (Some [mpxj_relation {| Spec.predecessorTaskId := None; Spec.type := Some FS;
                               Spec.lagValue := 0; Spec.lagUnit := "d" |}])
     = Some "UnknownFS".
Proof.
  intros Hfin. split; [ | repeat split; vm_compute; reflexivity].
  unfold format_predecessors, Spec.formatRelations.
  destruct relations as [| r rs]; [reflexivity | ].
  rewrite (mapM_relation_token (r :: rs) Hfin). reflexivity.
Qed.

(** Two relations: start-to-start on task 5 with two days of lag, then
    finish-to-start on task 8 with a week of lead. *)
Lemma format_predecessors_notation_witness :
  format_predecessors
    (Some (map mpxj_relation
             [ {| Spec.predecessorTaskId := Some 5; Spec.type := Some SS;
                  Spec.lagValue := 2; Spec.lagUnit := "d" |};
               {| Spec.predecessorTaskId := Some 8; Spec.type := None;
                  Spec.lagValue := (-1); Spec.lagUnit := "w" |} ]))
  = Some "5SS+2d; 8FS-1w".
Proof.
  pose proof (format_predecessors_notation
                [ {| Spec.predecessorTaskId := Some 5; Spec.type := Some SS;
                     Spec.lagValue := 2; Spec.lagUnit := "d" |};
                  {| Spec.predecessorTaskId := Some 8; Spec.type := None;
                     Spec.lagValue := (-1); Spec.lagUnit := "w" |} ]) as W.
  destruct W as [W _].
  - repeat constructor.
  - rewrite W. vm_compute. reflexivity.
Defined.

(** ** The correction summary *)

Lemma Zsum_app {A : Type} (f : A -> Z) (l1 l2 : list A) :
  Zsum f (l1 ++ l2) = Zsum f l1 + Zsum f l2.
Proof.
  unfold Zsum. induction l1 as [| x l1 IH]; cbn; [reflexivity | rewrite IH; lia].
Qed.

Lemma Zsum_perm {A : Type} (f : A -> Z) (l1 l2 : list A) :
  Permutation l1 l2 -> Zsum f l1 = Zsum f l2.
Proof. unfold Zsum. induction 1; cbn; lia. Qed.

Lemma Zsum_plus {A : Type} (f g : A -> Z) (l : list A) :
  Zsum (fun x => f x + g x) l = Zsum f l + Zsum g l.
Proof.
  unfold Zsum. induction l as [| x l IH]; cbn; [reflexivity | rewrite IH; lia].
Qed.

Lemma Zsum_map {A B : Type} (g : A -> B) (f : B -> Z) (l : list A) :
  Zsum f (map g l) = Zsum (fun x => f (g x)) l.
Proof.
  unfold Zsum. induction l as [| x l IH]; cbn; [reflexivity | rewrite IH; reflexivity].
Qed.

Lemma Zsum_cons {A : Type} (f : A -> Z) (x : A) (l : list A) :
  Zsum f (x :: l) = f x + Zsum f l.
Proof. reflexivity. Qed.

Lemma Series_unique_In (v : string) (column : list string) :
  In v (Series_unique column) <-> In v column.
Proof.
  induction column as [| a column IH]; cbn [Series_unique In]; [reflexivity | ].
  rewrite filter_In, IH, negb_true_iff.
  destruct (String.eqb_spec v a) as [-> | Hne]; [tauto | ].
  split; [tauto | ]. intros [-> | Hin]; [contradiction | auto].
Qed.

Lemma Series_unique_NoDup (column : list string) : List.NoDup (Series_unique column).
Proof.
  induction column as [| a column IH]; cbn [Series_unique]; constructor.
  - rewrite filter_In, String.eqb_refl. intros [_ H]. discriminate H.
  - apply List.NoDup_filter, IH.
Qed.

Lemma insert_by_count_perm (x : string * nat) (l : list (string * nat)) :
  Permutation (insert_by_count x l) (x :: l).
Proof.
  induction l as [| y l IH]; cbn [insert_by_count]; [reflexivity | ].
  destruct (snd y <=? snd x)%nat; [reflexivity | ].
  rewrite IH. apply perm_swap.
Qed.

Lemma sort_by_count_perm (l : list (string * nat)) :
  Permutation (sort_by_count l) l.
Proof.
  induction l as [| x l IH]; cbn; [reflexivity | ].
  rewrite insert_by_count_perm, IH. reflexivity.
Qed.

Lemma occurrences_cons (v a : string) (column : list string) :
  Z.of_nat (occurrences v (a :: column))
  = (if String.eqb v a then 1 else 0) + Z.of_nat (occurrences v column).
Proof.
  unfold occurrences. cbn [List.filter].
  destruct (String.eqb v a); cbn [length]; lia.
Qed.

Lemma indicator_absent (a : string) (l : list string) :
  ~ In a l -> Zsum (fun v => if String.eqb v a then 1 else 0) l = 0.
Proof.
  induction l as [| x l IH]; [reflexivity | ]. intros Hnot.
  rewrite Zsum_cons. cbn [In] in Hnot.
  destruct (String.eqb_spec x a) as [-> | _]; [tauto | ]. rewrite IH; tauto.
Qed.

Lemma indicator_once (a : string) (l : list string) :
  List.NoDup l -> In a l -> Zsum (fun v => if String.eqb v a then 1 else 0) l = 1.
Proof.
  induction 1 as [| x l Hx Hnd IH]; [intros [] | ]. rewrite Zsum_cons.
  intros [-> | Hin].
  - rewrite String.eqb_refl, indicator_absent by exact Hx. reflexivity.
  - destruct (String.eqb_spec x a) as [-> | _]; [contradiction | ]. rewrite IH; tauto.
Qed.

(** Each cell of a column is counted once, under its own value. *)
Lemma occurrences_total (l column : list string) :
  List.NoDup l -> (forall v, In v column -> In v l) ->
  Zsum (fun v => Z.of_nat (occurrences v column)) l = Z.of_nat (length column).
Proof.
  intros Hnd. induction column as [| a column IH]; intros Hincl.
  - clear. induction l as [| x l IHl]; [reflexivity | ].
    rewrite Zsum_cons, IHl. reflexivity.
  - transitivity (Zsum (fun v => (if String.eqb v a then 1 else 0)
                                 + Z.of_nat (occurrences v column)) l).
    { clear. induction l as [| x l IHl]; [reflexivity | ].
      rewrite !Zsum_cons, occurrences_cons, IHl. reflexivity. }
    rewrite Zsum_plus, indicator_once, IH.
    + cbn [length]. lia.
    + intros v Hv. apply Hincl. right. exact Hv.
    + exact Hnd.
    + apply Hincl. left. reflexivity.
Qed.

Lemma occurrences_bounds (v : string) (column : list string) :
  In v column -> (0 < occurrences v column <= length column)%nat.
Proof.
  intros Hin. unfold occurrences. split.
  - assert (Hf : In v (List.filter (String.eqb v) column)).
    { apply filter_In. split; [exact Hin | apply String.eqb_refl]. }
    destruct (List.filter (String.eqb v) column); [destruct Hf | cbn; lia].
  - apply filter_length_le.
Qed.

(** The counts of [value_counts] add up to the length of the column. *)
Lemma value_counts_total (column : list string) :
  Zsum (fun x => Z.of_nat (snd x)) (value_counts column) = Z.of_nat (length column).
Proof.
  unfold value_counts.
  rewrite (Zsum_perm _ _ _ (sort_by_count_perm _)), Zsum_map. cbn [snd].
  apply occurrences_total.
  - apply Series_unique_NoDup.
  - intros v Hv. apply (proj2 (Series_unique_In v column)). exact Hv.
Qed.

Lemma value_counts_bounds (column : list string) :
  Forall (fun x => (0 < snd x <= length column)%nat) (value_counts column).
Proof.
  unfold value_counts.
  eapply Permutation_Forall; [symmetry; apply sort_by_count_perm | ].
  apply List.Forall_forall. intros x Hx. apply in_map_iff in Hx.
  destruct Hx as (v & <- & Hv). cbn [snd].
  apply occurrences_bounds. apply (proj1 (Series_unique_In v column)). exact Hv.
Qed.

Lemma Zsum_linear {A : Type} (a b : Z) (f g : A -> Z) (l : list A) :
  Zsum (fun x => a * f x - b * g x) l = a * Zsum f l - b * Zsum g l.
Proof.
  induction l as [| x l IH]; [cbn; lia | ]. rewrite !Zsum_cons, IH. lia.
Qed.

Lemma length_le_Zsum {A : Type} (f : A -> Z) (l : list A) :
  Forall (fun x => 0 < f x) l -> Z.of_nat (length l) <= Zsum f l.
Proof.
  induction 1 as [| x l Hx _ IH]; [cbn; lia | ].
  rewrite Zsum_cons. cbn [length]. lia.
Qed.

(** The tenths shown for a share are those of [tenths_of]. *)
Lemma percentage_text (count len : nat) :
  (0 < count <= len)%nat -> Z.of_nat len < 2 ^ 53 ->
  Py.format_1f (percentage count len)
  = Py.fixed 1 (tenths_of (percentage count len)).
Proof.
  intros Hc Hlen.
  destruct (FloatFacts.percentage_near count len Hc Hlen) as (m & e & E & _).
  unfold Py.format_1f, Py.format_f, tenths_of. rewrite E. reflexivity.
Qed.

(** Summing the shown tenths row by row: each row is off by at most one
    half, up to the rounding of the two float operations. *)
Lemma tenths_rows_bound (len : nat) (stats : list (string * nat)) :
  Z.of_nat len < 2 ^ 53 ->
  Forall (fun x => (0 < snd x <= len)%nat) stats ->
  2 ^ 41 * Z.abs (Zsum (fun x => Z.of_nat len * tenths_of (percentage (snd x) len)
                                 - 1000 * Z.of_nat (snd x)) stats)
  <= (2 ^ 40 + 2) * Z.of_nat len * Z.of_nat (length stats).
Proof.
  intros Hlen. induction 1 as [| x stats Hx _ IH]; [cbn; lia | ].
  rewrite Zsum_cons. cbn [length].
  destruct (FloatFacts.percentage_near (snd x) len Hx Hlen) as (m & e & E & Hnear).
  unfold tenths_of at 1. rewrite E.
  replace (Z.of_nat len * Py.scaled 1 m e) with (Py.scaled 1 m e * Z.of_nat len) by lia.
  lia.
Qed.

(** C8. For a non-empty table of corrected records: the summary has one
    row per source text, and their counts add up to the number of records;
    the percentages, count / total * 100 shown with one decimal, add up
    to 100 within one twentieth of a percent per row (for a table of fewer
    than 2^32 records, where the float operations add no more); and the
    last row shows the ratio of the hour totals followed by 'x' when the
    raw total is positive, and 'N/A' when the raw total is zero. *)
Theorem summary_rows_add_up (Series_sum : list float -> float) (tasks_df : list TaskRow) :
  tasks_df <> [] ->
  Zsum (fun x => Z.of_nat (snd x)) (value_counts (map Duration_Source tasks_df))
  = Z.of_nat (length tasks_df)
  /\ (Z.of_nat (length tasks_df) < 2 ^ 32 ->
      firstn (length (value_counts (map Duration_Source tasks_df)))
             (summary_data Series_sum tasks_df)
      = map (fun x =>
               {| Metric := "Tasks from " ++ fst x;
                  Count := CInt (Z.of_nat (snd x));
                  Percentage :=
                    Py.fixed 1 (tenths_of (percentage (snd x) (length tasks_df)))
                    ++ "%" |})
            (value_counts (map Duration_Source tasks_df))
      /\ 2 * Z.abs (Zsum (fun x => tenths_of (percentage (snd x) (length tasks_df)))
                         (value_counts (map Duration_Source tasks_df)) - 1000)
         <= Z.of_nat (length (value_counts (map Duration_Source tasks_df))))
  /\ last (summary_data Series_sum tasks_df)
     = Some {| Metric := "Correction factor";
               Count := correction_factor_cell
                          (Series_sum (map Duration_MPXJ_Hours tasks_df))
                          (Series_sum (map Duration_Corrected_Hours tasks_df));
               Percentage := "" |}
  /\ ((0 <? Series_sum (map Duration_MPXJ_Hours tasks_df))%float = true ->
      correction_factor_cell
        (Series_sum (map Duration_MPXJ_Hours tasks_df))
        (Series_sum (map Duration_Corrected_Hours tasks_df))
      = CStr (Py.format_1f (Series_sum (map Duration_Corrected_Hours tasks_df)
                            / Series_sum (map Duration_MPXJ_Hours tasks_df))%float
              ++ "x"))
  /\ ((Series_sum (map Duration_MPXJ_Hours tasks_df) =? 0)%float = true ->
      correction_factor_cell
        (Series_sum (map Duration_MPXJ_Hours tasks_df))
        (Series_sum (map Duration_Corrected_Hours tasks_df))
      = CStr "N/A").
Proof.
  intros Hne.
  set (len := length tasks_df) in *.
  set (stats := value_counts (map Duration_Source tasks_df)).
  assert (Hpos : 0 < Z.of_nat len).
  { unfold len. destruct tasks_df; [contradiction | cbn [length]; lia]. }
  assert (Hbounds : Forall (fun x => (0 < snd x <= len)%nat) stats).
  { unfold stats, len. rewrite <- (length_map Duration_Source).
    apply value_counts_bounds. }
  assert (Htotal : Zsum (fun x => Z.of_nat (snd x)) stats = Z.of_nat len).
  { unfold stats, len. rewrite <- (length_map Duration_Source).
    apply value_counts_total. }
  split; [exact Htotal | split; [intros Hlen; split | split; [ | split]]].
  - unfold summary_data. fold len. fold stats.
    rewrite <- (length_map (fun '(source, count) =>
                   {| Metric := "Tasks from " ++ source;
                      Count := CInt (Z.of_nat count);
                      Percentage := Py.format_1f (percentage count len) ++ "%" |}) stats)
      at 1.
    rewrite firstn_app, Nat.sub_diag, firstn_all. cbn [firstn]. rewrite app_nil_r.
    apply map_ext_in. intros [source count] Hin. cbn [fst snd].
    rewrite percentage_text; [reflexivity | | lia].
    rewrite List.Forall_forall in Hbounds. exact (Hbounds _ Hin).
  - pose proof (tenths_rows_bound len stats ltac:(lia) Hbounds) as Hrows.
    rewrite Zsum_linear, Htotal in Hrows.
    assert (Hk : Z.of_nat (length stats) <= Z.of_nat len).
    { rewrite <- Htotal. apply length_le_Zsum.
      eapply List.Forall_impl; [ | exact Hbounds]. cbn. intros x Hx. lia. }
    set (S := Zsum (fun x => tenths_of (percentage (snd x) len)) stats) in *.
    replace (Z.of_nat len * S - 1000 * Z.of_nat len)
      with (Z.of_nat len * (S - 1000)) in Hrows by lia.
    rewrite Z.abs_mul, (Z.abs_eq (Z.of_nat len)) in Hrows by lia.
    assert (Hdiv : 2 ^ 41 * Z.abs (S - 1000) <= (2 ^ 40 + 2) * Z.of_nat (length stats)).
    { apply (Z.mul_le_mono_pos_l _ _ (Z.of_nat len) Hpos). lia. }
    lia.
  - unfold summary_data.
    cbv zeta. rewrite last_app. reflexivity.
  - intros Hgt. unfold correction_factor_cell. rewrite Hgt. reflexivity.
  - intros Hzero. unfold correction_factor_cell.
    rewrite (FloatFacts.eqb_zero_not_ltb _ Hzero). reflexivity.
Qed.

(** Three records, two scaled by 24 and one corrected from the reference:
    66.7% and 33.3%, and a factor of 1200 / 50. *)
Lemma summary_rows_add_up_witness :
  Zsum (fun x => Z.of_nat (snd x)) (value_counts (map Duration_Source example_rows)) = 3
  /\ summary_data sum_left example_rows
     = [ {| Metric := "Tasks from MPXJ corregido (x24)"; Count := CInt 2;
            Percentage := "66.7%" |};
         {| Metric := "Tasks from Nativo (corregido)"; Count := CInt 1;
            Percentage := "33.3%" |};
         {| Metric := "Total tasks"; Count := CInt 3; Percentage := "100%" |};
         {| Metric := "Original MPXJ hours"; Count := CStr "50"; Percentage := "" |};
         {| Metric := "Corrected hours"; Count := CStr "1200"; Percentage := "" |};
         {| Metric := "Correction factor"; Count := CStr "24.0x"; Percentage := "" |} ].
Proof.
  split.
  - apply (summary_rows_add_up sum_left example_rows). discriminate.
  - vm_compute. reflexivity.
Defined.

(** ** Durations read by the visualizer *)

Example float_of_digits_samples :
  PyStr.float_of_digits "0.1" = Some 0.1%float
  /\ PyStr.float_of_digits "3.14159" = Some 3.14159%float
  /\ PyStr.float_of_digits "123456789012345678901234567890" = Some 123456789012345678901234567890%float
  /\ PyStr.float_of_digits ".5" = Some 0.5%float
  /\ PyStr.float_of_digits "7." = Some 7%float
  /\ PyStr.float_of_digits "0.000000000000000000000000000001" = Some 1e-30%float
  /\ PyStr.float_of_digits "9007199254740993" = Some 9007199254740992%float
  /\ PyStr.float_of_digits "1.2.3" = None
  /\ PyStr.float_of_digits "." = None.
Proof. vm_compute. repeat split. Qed.

Example parse_duration_samples :
  parse_duration (Some "3.0eh") = Some 0.375%float
  /\ parse_duration (Some "5.0d") = Some 5%float
  /\ parse_duration (Some "2 Weeks") = Some 10%float
  /\ parse_duration (Some "2.0ed") = Some 0.25%float
  /\ parse_duration (Some "30.0m") = Some 600%float
  /\ parse_duration (Some "10.0%") = Some 0%float
  /\ parse_duration (Some "1.0E10d") = Some 0.125%float
  /\ parse_duration (Some "1.2.3d") = None.
Proof. vm_compute. repeat split. Qed.

Lemma space_not_number (c : ascii) :
  PyStr.is_space c = true -> PyStr.is_digit_or_dot c = false.
Proof. each_char c. Qed.

Lemma lower_not_number (c : ascii) :
  PyStr.is_lower c = true -> PyStr.is_digit_or_dot c = false.
Proof. each_char c. Qed.

Lemma lower_not_space (c : ascii) :
  PyStr.is_lower c = true -> PyStr.is_space c = false.
Proof. each_char c. Qed.

Lemma lower_char_number (c : ascii) :
  PyStr.is_digit_or_dot c = true -> PyStr.lower_char c = c.
Proof. each_char c. Qed.

Lemma lower_char_space (c : ascii) :
  PyStr.is_space c = true -> PyStr.lower_char c = c.
Proof. each_char c. Qed.

Lemma lower_char_letter (c : ascii) :
  PyStr.is_letter c = true -> PyStr.is_lower (PyStr.lower_char c) = true.
Proof. each_char c. Qed.

Lemma lower_char_idem (c : ascii) :
  PyStr.lower_char (PyStr.lower_char c) = PyStr.lower_char c.
Proof. each_char c. Qed.


Lemma append_cons (c : ascii) (a b : string) : String c a ++ b = String c (a ++ b).
Proof. reflexivity. Qed.

Lemma append_nil (b : string) : EmptyString ++ b = b.
Proof. reflexivity. Qed.

Lemma lower_app (a b : string) :
  PyStr.lower (a ++ b) = PyStr.lower a ++ PyStr.lower b.
Proof.
  induction a as [| c a IH]; [reflexivity | ].
  rewrite append_cons. cbn [PyStr.lower]. rewrite IH, append_cons. reflexivity.
Qed.

Lemma lower_fixed (p : ascii -> bool) (s : string) :
  (forall c, p c = true -> PyStr.lower_char c = c) ->
  PyStr.forallb p s = true -> PyStr.lower s = s.
Proof.
  intros Hp. induction s as [| c s IH]; cbn; [reflexivity | ].
  intros H. apply andb_prop in H as [Hc Hs]. rewrite (Hp c Hc), (IH Hs). reflexivity.
Qed.

Lemma lower_letters (s : string) :
  PyStr.forallb PyStr.is_letter s = true ->
  PyStr.forallb PyStr.is_lower (PyStr.lower s) = true.
Proof.
  induction s as [| c s IH]; cbn; [reflexivity | ].
  intros H. apply andb_prop in H as [Hc Hs].
  rewrite (lower_char_letter c Hc), (IH Hs). reflexivity.
Qed.

Lemma lower_idem (s : string) : PyStr.lower (PyStr.lower s) = PyStr.lower s.
Proof.
  induction s as [| c s IH]; cbn; [reflexivity | ].
  rewrite lower_char_idem, IH. reflexivity.
Qed.

(** A greedy run stops at the first character outside the class. *)
Lemma span_app (p : ascii -> bool) (a b : string) :
  PyStr.forallb p a = true ->
  match b with EmptyString => True | String c _ => p c = false end ->
  PyStr.span p (a ++ b) = (a, b).
Proof.
  intros Ha Hb. induction a as [| c a IH].
  - rewrite append_nil. destruct b as [| c b]; [reflexivity | ]. cbn. rewrite Hb. reflexivity.
  - cbn in Ha. apply andb_prop in Ha as [Hc Ha].
    rewrite append_cons. cbn [PyStr.span]. rewrite Hc, (IH Ha). reflexivity.
Qed.

Lemma span_all (p : ascii -> bool) (a : string) :
  PyStr.forallb p a = true -> PyStr.span p a = (a, EmptyString).
Proof.
  intros Ha. induction a as [| c a IH]; [reflexivity | ].
  cbn in Ha. apply andb_prop in Ha as [Hc Ha].
  cbn [PyStr.span]. rewrite Hc, (IH Ha). reflexivity.
Qed.

Lemma float_of_digits_shape (number : string) (value : float) :
  PyStr.float_of_digits number = Some value ->
  PyStr.forallb PyStr.is_digit_or_dot number = true /\ number <> EmptyString.
Proof.
  unfold PyStr.float_of_digits.
  destruct (PyStr.forallb PyStr.is_digit_or_dot number); [ | discriminate].
  intros H. split; [reflexivity | ]. intros ->. discriminate H.
Qed.

Lemma match_duration_parts (number spaces unit : string) :
  PyStr.forallb PyStr.is_digit_or_dot number = true -> number <> EmptyString ->
  PyStr.forallb PyStr.is_space spaces = true ->
  PyStr.forallb PyStr.is_lower unit = true -> unit <> EmptyString ->
  match_duration (number ++ spaces ++ unit) = Some (number, unit).
Proof.
  intros Hn Hn0 Hs Hu Hu0. unfold match_duration.
  destruct unit as [| u unit]; [contradiction | ].
  cbn in Hu. apply andb_prop in Hu as [Hu1 Hu].
  rewrite (span_app _ number (spaces ++ String u unit) Hn).
  - destruct number as [| n number]; [contradiction | ].
    rewrite (span_app _ spaces (String u unit) Hs) by (apply lower_not_space, Hu1).
    rewrite (span_all PyStr.is_lower (String u unit)) by (cbn; rewrite Hu1, Hu; reflexivity).
    reflexivity.
  - destruct spaces as [| c spaces].
    + rewrite append_nil. apply lower_not_number, Hu1.
    + rewrite append_cons. cbn in Hs. apply andb_prop in Hs as [Hc _].
      apply space_not_number, Hc.
Qed.

(** X1. A text made of a decimal number, optional white space and a unit
    word in either case is converted by the first letter of the unit: 'd'
    keeps the number, 'h' and 'e' (every elapsed unit, elapsed days too)
    divide it by 8, 'w' multiplies by 5, 'm' (minutes as well as months)
    by 20, any other letter keeps it. *)
Theorem parse_duration_by_first_letter (number spaces unit : string) (value : float) :
  PyStr.float_of_digits number = Some value ->
  PyStr.forallb PyStr.is_space spaces = true ->
  PyStr.forallb PyStr.is_letter unit = true ->
  unit <> EmptyString ->
  parse_duration (Some (number ++ spaces ++ unit))
  = Some (days_of_unit (PyStr.lower unit) value).
Proof.
  intros Hv Hs Hu Hu0.
  destruct (float_of_digits_shape number value Hv) as [Hn Hn0].
  unfold parse_duration.
  destruct (number ++ spaces ++ unit) as [| c0 text0] eqn:Etext.
  { destruct number; [contradiction | rewrite append_cons in Etext; discriminate Etext]. }
  rewrite <- Etext. clear Etext c0 text0.
  rewrite !lower_app, (lower_fixed _ number lower_char_number Hn),
    (lower_fixed _ spaces lower_char_space Hs).
  rewrite (match_duration_parts number spaces (PyStr.lower unit) Hn Hn0 Hs (lower_letters unit Hu)).
  - rewrite Hv. reflexivity.
  - destruct unit; [contradiction | discriminate].
Qed.

Lemma parse_duration_by_first_letter_witness :
  parse_duration (Some ("2.0" ++ "" ++ "ed")) = Some (2 / 8)%float
  /\ parse_duration (Some ("30.0" ++ " " ++ "Min")) = Some (30 * 20)%float.
Proof.
  split.
  - apply (parse_duration_by_first_letter "2.0" "" "ed" 2); vm_compute; congruence.
  - apply (parse_duration_by_first_letter "30.0" " " "Min" 30); vm_compute; congruence.
Defined.






(** X3. A number part with two dots, or with dots only, followed by a unit
    word makes [parse_duration] fail with the [ValueError] of [float]. *)
Theorem parse_duration_value_error (number spaces unit : string) :
  PyStr.forallb PyStr.is_digit_or_dot number = true ->
  number <> EmptyString ->
  (2 <= PyStr.count_char (fun c => (PyStr.code c =? 46)%N) number)%nat
  \/ PyStr.count_char PyStr.is_digit number = O ->
  PyStr.forallb PyStr.is_space spaces = true ->
  PyStr.forallb PyStr.is_letter unit = true ->
  unit <> EmptyString ->
  parse_duration (Some (number ++ spaces ++ unit)) = None.
Proof.
  intros Hn Hn0 Hbad Hs Hu Hu0.
  assert (Hv : PyStr.float_of_digits number = None).
  { unfold PyStr.float_of_digits. rewrite Hn. cbn [andb].
    destruct Hbad as [Hdots | Hdigits].
    - replace (PyStr.count_char (fun c => (PyStr.code c =? 46)%N) number <=? 1)%nat
        with false; [reflexivity | ].
      symmetry. apply Nat.leb_gt. lia.
    - rewrite Hdigits. rewrite andb_false_r. reflexivity. }
  unfold parse_duration.
  destruct (number ++ spaces ++ unit) as [| c0 text0] eqn:Etext.
  { destruct number; [contradiction | rewrite append_cons in Etext; discriminate Etext]. }
  rewrite <- Etext. clear Etext c0 text0.
  rewrite !lower_app, (lower_fixed _ number lower_char_number Hn),
    (lower_fixed _ spaces lower_char_space Hs).
  rewrite (match_duration_parts number spaces (PyStr.lower unit) Hn Hn0 Hs (lower_letters unit Hu)).
  - rewrite Hv. reflexivity.
  - destruct unit; [contradiction | discriminate].
Qed.

Lemma parse_duration_value_error_witness :
  parse_duration (Some ("1.2.3" ++ "" ++ "d")) = None.
Proof.
  apply (parse_duration_value_error "1.2.3" "" "d");
    try (vm_compute; congruence).
  left. vm_compute. lia.
Defined.

(** X4. [parse_duration] does not tell capitals from small letters. *)
Theorem parse_duration_ignores_case (text : string) :
  parse_duration (Some (PyStr.lower text)) = parse_duration (Some text).
Proof.
  unfold parse_duration. rewrite lower_idem.
  destruct text as [| c text]; reflexivity.
Qed.

(** ** Status, display name and prepared rows of the visualizer *)

Lemma at_least_100_is_positive (x : float) :
  (100 <=? x)%float = true -> (0 <? x)%float = true.
Proof.
  rewrite FloatAxioms.leb_spec, FloatAxioms.ltb_spec, FloatFacts.Prim2SF_zero.
  change (Prim2SF 100) with (S754_finite false 7036874417766400 (-46)).
  unfold SFleb, SFltb, SFcompare.
  destruct (Prim2SF x) as [s | s | | s m e]; try discriminate.
  - destruct s; [discriminate | reflexivity].
  - destruct s; [discriminate | reflexivity].
Qed.

(** X5. The status of a row is 'Complete' exactly from 100 percent on,
    'Not Started' exactly when the progress is not above 0 (0, a negative
    number or NaN), and 'In Progress' in between. *)
Theorem status_of_thresholds (x : float) :
  (status_of x = "Complete" <-> (100 <=? x)%float = true)
  /\ (status_of x = "In Progress"
      <-> (0 <? x)%float = true /\ (100 <=? x)%float = false)
  /\ (status_of x = "Not Started" <-> (0 <? x)%float = false).
Proof.
  unfold status_of.
  destruct (100 <=? x)%float eqn:H100.
  - rewrite (at_least_100_is_positive x H100).
    split; [ | split]; (split; intros H);
      try reflexivity; try discriminate H.
    destruct H as [_ H']. discriminate H'.
  - destruct (0 <? x)%float;
      (split; [ | split]; (split; intros H));
      try reflexivity; try discriminate H; auto.
    destruct H as [H' _]. discriminate H'.
Qed.

Lemma length_append (a b : string) :
  String.length (a ++ b) = (String.length a + String.length b)%nat.
Proof.
  induction a as [| c a IH]; [reflexivity | ].
  rewrite append_cons. cbn [String.length]. rewrite IH. reflexivity.
Qed.

Lemma length_repeat (text : string) (n : Z) :
  String.length (PyStr.repeat text n) = (Z.to_nat n * String.length text)%nat.
Proof.
  unfold PyStr.repeat. induction (Z.to_nat n) as [| k IH]; [reflexivity | ].
  change (Nat.iter (S k) (String.append text) EmptyString)
    with (text ++ Nat.iter k (String.append text) EmptyString).
  rewrite length_append, IH. lia.
Qed.

Lemma int_None_iff (x : float) : Py.int x = None <-> is_finite x = false.
Proof.
  unfold Py.int, is_finite. destruct (Prim2SF x); split; intros H; try discriminate H; reflexivity.
Qed.

Lemma display_name_None (row : ChartRow) :
  display_name row = None
  <-> is_finite (Outline_Level row) = false \/ Chart_Name row = None.
Proof.
  unfold display_name. rewrite <- int_None_iff.
  destruct (Py.int (Outline_Level row)), (Chart_Name row); cbn; split;
    intros H; try discriminate H; auto; destruct H as [H | H]; discriminate H.
Qed.

(** X6. The display name cannot be built when the outline level is NaN or
    infinite ([int] raises) or when the name cell is empty; otherwise it is
    the name behind two spaces per level, and behind none for a level
    below 1. *)
Theorem display_name_indentation (row : ChartRow) :
  (display_name row = None
   <-> is_finite (Outline_Level row) = false \/ Chart_Name row = None)
  /\ (forall text, display_name row = Some text ->
        exists level name,
          Py.int (Outline_Level row) = Some level
          /\ Chart_Name row = Some name
          /\ text = PyStr.repeat "  " level ++ name
          /\ String.length text = (2 * Z.to_nat level + String.length name)%nat
          /\ (level <= 0 -> text = name)).
Proof.
  split; [apply display_name_None | ]. unfold display_name. intros text.
  destruct (Py.int (Outline_Level row)) as [level |]; cbn; [ | discriminate].
  destruct (Chart_Name row) as [name |]; cbn; [ | discriminate].
  intros [= <-]. exists level, name.
  split; [reflexivity | split; [reflexivity | split; [reflexivity | split]]].
  - rewrite length_append, length_repeat. cbn [String.length]. lia.
  - intros Hle. unfold PyStr.repeat.
    replace (Z.to_nat level) with O by lia. reflexivity.
Qed.

Lemma filter_dated_map (df : list ChartRow) :
  map dates_of
      (List.filter (fun row => notna (Chart_Start row) && notna (Chart_Finish row)) df)
  = filter_dated (map dates_of df).
Proof.
  unfold filter_dated. induction df as [| row df IH]; [reflexivity | ].
  cbn [List.filter map]. cbn [dates_of Gantt_Start Gantt_Finish].
  destruct (notna (Chart_Start row) && notna (Chart_Finish row));
    cbn [map]; rewrite IH; reflexivity.
Qed.

Lemma prepare_row_None (row : ChartRow) :
  prepare_row row = None
  <-> is_finite (Outline_Level row) = false \/ Chart_Name row = None.
Proof.
  unfold prepare_row. rewrite <- display_name_None.
  destruct (display_name row); cbn; split; intros H; try discriminate H; reflexivity.
Qed.

Lemma prepare_row_Some (row : ChartRow) (prepared : PreparedRow) :
  prepare_row row = Some prepared ->
  prepared_from prepared = row
  /\ Status prepared = status_of (Percent_Complete row)
  /\ display_name row = Some (DisplayName prepared).
Proof.
  unfold prepare_row. destruct (display_name row) as [name |]; cbn; [ | discriminate].
  intros [= <-]. cbn. auto.
Qed.

Lemma no_dated_row (df : list ChartRow) :
  List.filter (fun row => notna (Chart_Start row) && notna (Chart_Finish row)) df = []
  <-> forall row, In row df -> Chart_Start row = None \/ Chart_Finish row = None.
Proof.
  induction df as [| first df IH]; cbn [List.filter In].
  - split; [intros _ row [] | reflexivity].
  - destruct (Chart_Start first) as [start |] eqn:Hs;
      [destruct (Chart_Finish first) as [finish |] eqn:Hf | ]; cbn.
    + split; [discriminate | ]. intros H.
      destruct (H first (or_introl eq_refl)) as [E | E]; congruence.
    + rewrite IH. split.
      * intros H row [<- | Hin]; [right; exact Hf | apply H, Hin].
      * intros H row Hin. apply H. right. exact Hin.
    + rewrite IH. split.
      * intros H row [<- | Hin]; [left; exact Hs | apply H, Hin].
      * intros H row Hin. apply H. right. exact Hin.
Qed.

Lemma prepare_dated_None (df : list ChartRow) :
  mapM prepare_row
       (List.filter (fun row => notna (Chart_Start row) && notna (Chart_Finish row)) df)
  = None
  <-> exists row, In row df
                  /\ Chart_Start row <> None
                  /\ Chart_Finish row <> None
                  /\ (is_finite (Outline_Level row) = false \/ Chart_Name row = None).
Proof.
  rewrite mapM_None, Exists_exists. split.
  - intros (row & Hin & Hnone). exists row.
    apply list_elem_of_In, filter_In in Hin. destruct Hin as [Hin Hdated].
    apply andb_prop in Hdated as [Hs Hf].
    split; [exact Hin | ]. split; [ | split].
    + destruct (Chart_Start row); [discriminate | discriminate Hs].
    + destruct (Chart_Finish row); [discriminate | discriminate Hf].
    + apply prepare_row_None, Hnone.
  - intros (row & Hin & Hs & Hf & Hbad). exists row. split.
    + apply list_elem_of_In, filter_In. split; [exact Hin | ].
      destruct (Chart_Start row), (Chart_Finish row);
        try contradiction; reflexivity.
    + apply prepare_row_None, Hbad.
Qed.

Lemma prepare_dated_Some (df : list ChartRow) (rows : list PreparedRow) :
  mapM prepare_row
       (List.filter (fun row => notna (Chart_Start row) && notna (Chart_Finish row)) df)
  = Some rows ->
  map (fun prepared => dates_of (prepared_from prepared)) rows
  = filter_dated (map dates_of df)
  /\ Forall (fun prepared =>
               Status prepared
               = status_of (Percent_Complete (prepared_from prepared))) rows.
Proof.
  intros Hrows. apply mapM_Some_1 in Hrows.
  rewrite <- filter_dated_map.
  induction Hrows as [| row prepared kept rows Hrow _ IH]; [split; constructor | ].
  destruct IH as [IHmap IHstatus].
  destruct (prepare_row_Some row prepared Hrow) as (Hfrom & Hstatus & _).
  split.
  - cbn [map]. rewrite Hfrom, IHmap. reflexivity.
  - constructor; [rewrite Hfrom; exact Hstatus | exact IHstatus].
Qed.

(** X7. Preparing the chart rows fails exactly when no row has both dates,
    or when a row with both dates has an empty name cell or an outline
    level that is NaN or infinite; a row without dates is dropped before
    name and level are looked at.  When it succeeds, the result is not
    empty and holds the rows with both dates, in their order, each with its
    status. *)
Theorem prepare_rows_outcome (df : list ChartRow) :
  (prepare_rows df = None
   <-> (forall row, In row df -> Chart_Start row = None \/ Chart_Finish row = None)
       \/ exists row, In row df
                      /\ Chart_Start row <> None
                      /\ Chart_Finish row <> None
                      /\ (is_finite (Outline_Level row) = false \/ Chart_Name row = None))
  /\ (forall rows, prepare_rows df = Some rows ->
        rows <> []
        /\ map (fun prepared => dates_of (prepared_from prepared)) rows
           = filter_dated (map dates_of df)
        /\ Forall (fun prepared =>
                     Status prepared
                     = status_of (Percent_Complete (prepared_from prepared))) rows).
Proof.
  pose proof (no_dated_row df) as Hnone.
  pose proof (prepare_dated_None df) as Hfail.
  pose proof (prepare_dated_Some df) as Hgood.
  unfold prepare_rows.
  destruct (List.filter (fun row => notna (Chart_Start row) && notna (Chart_Finish row)) df)
    as [| first dated].
  - split; [ | discriminate].
    split; [intros _; left; apply Hnone; reflexivity | reflexivity].
  - split.
    + rewrite Hfail. split; [auto | ].
      intros [Hall | Hbad]; [ | exact Hbad].
      apply Hnone in Hall. discriminate Hall.
    + intros rows Hrows. split; [ | apply Hgood, Hrows].
      intros ->. apply mapM_Some_1 in Hrows. inversion Hrows.
Qed.

(** ** The resource sheet *)

(** X8. The resource chart reads the first sheet whose name contains
    'Resource', and none when no sheet name does. *)
Theorem find_resource_sheet_first (sheet_names : list string) :
  (find_resource_sheet sheet_names = None
   <-> Forall (fun sheet => Py.contains "Resource" sheet = false) sheet_names)
  /\ (forall sheet, find_resource_sheet sheet_names = Some sheet ->
        exists before after,
          sheet_names = (before ++ sheet :: after)%list
          /\ Py.contains "Resource" sheet = true
          /\ Forall (fun earlier => Py.contains "Resource" earlier = false) before).
Proof.
  induction sheet_names as [| first rest [IHnone IHsome]]; cbn [find_resource_sheet].
  - split; [split; [constructor | reflexivity] | discriminate].
  - destruct (Py.contains "Resource" first) eqn:Hfirst; split.
    + split; [discriminate | ]. intros H. inversion H; subst. congruence.
    + intros sheet [= <-]. exists [], rest. split; [reflexivity | split; [exact Hfirst | constructor]].
    + rewrite IHnone. split; intros H.
      * constructor; assumption.
      * inversion H; assumption.
    + intros sheet Hsheet. destruct (IHsome sheet Hsheet) as (before & after & -> & Hc & Hb).
      exists (first :: before), after. split; [reflexivity | split; [exact Hc | ]].
      constructor; assumption.
Qed.

(** ** Column widths *)

Lemma max_length_from (cells : list string) : forall start,
  (start <= fold_left (fun max_length cell =>
                         if (max_length <? String.length cell)%nat then String.length cell
                         else max_length) cells start)%nat
  /\ Forall (fun cell =>
               (String.length cell
                <= fold_left (fun max_length cell =>
                                if (max_length <? String.length cell)%nat
                                then String.length cell else max_length) cells start)%nat)
            cells.
Proof.
  induction cells as [| cell cells IH]; intros start; cbn [fold_left].
  - split; [lia | constructor].
  - destruct (IH (if (start <? String.length cell)%nat then String.length cell else start))
      as [Hstart Hall].
    destruct (Nat.ltb_spec start (String.length cell)); split; try lia;
      constructor; try lia; exact Hall.
Qed.

(** X9. The width set for a column is between 2 and 50, and it leaves two
    characters more than the longest cell text needs unless that would
    pass 50: every cell text of at most 48 characters fits. *)
Theorem adjusted_width_fits (cells : list string) :
  (2 <= adjusted_width cells <= 50)%nat
  /\ Forall (fun cell =>
               (Nat.min (String.length cell + 2) 50 <= adjusted_width cells)%nat) cells
  /\ (adjusted_width [] = 2)%nat.
Proof.
  unfold adjusted_width, max_length.
  destruct (max_length_from cells O) as [_ Hall].
  split; [lia | split; [ | reflexivity]].
  eapply List.Forall_impl; [ | exact Hall]. cbn. intros cell Hcell. lia.
Qed.

(** ** More on the correction cascade *)

(** X10. The display text and the hours of a corrected record agree: under
    the tags [RawAccepted] and [RawValidatedByReference] both are the raw
    ones, and under every other tag the text is the corrected hours with
    one decimal followed by 'h'. *)
Theorem display_text_matches_hours (native_data : gmap Z NativeEntry) (task_id : Z)
    (raw_str : string) (raw_hours : float) :
  ((tag (correct_duration native_data task_id raw_str raw_hours) = Some RawAccepted
    \/ tag (correct_duration native_data task_id raw_str raw_hours)
       = Some RawValidatedByReference)
   /\ corrected_hours (correct_duration native_data task_id raw_str raw_hours) = raw_hours
   /\ corrected_duration_str (correct_duration native_data task_id raw_str raw_hours)
      = raw_str)
  \/ (tag (correct_duration native_data task_id raw_str raw_hours) <> Some RawAccepted
      /\ tag (correct_duration native_data task_id raw_str raw_hours)
         <> Some RawValidatedByReference
      /\ corrected_duration_str (correct_duration native_data task_id raw_str raw_hours)
         = Py.format_1f
             (corrected_hours (correct_duration native_data task_id raw_str raw_hours))
           ++ "h").
Proof.
  unfold tag, correct_duration.
  destruct (native_data !! task_id) as [ref |].
  - destruct (0 <? raw_hours)%float;
      [ destruct ((20 <=? native_hours ref / raw_hours)%float
                  && (native_hours ref / raw_hours <=? 28)%float);
        [ | destruct ((0.8 <=? native_hours ref / raw_hours)%float
                      && (native_hours ref / raw_hours <=? 1.2)%float) ] | ];
      cbn [corrected_hours duration_source corrected_duration_str];
      autorewrite with tags;
      first [ left; split; [auto | split; reflexivity]
            | right; split; [discriminate | split; [discriminate | reflexivity]] ].
  - destruct (Py.contains "eh" raw_str && (raw_hours <? 100)%float);
      cbn [corrected_hours duration_source corrected_duration_str];
      autorewrite with tags;
      first [ left; split; [auto | split; reflexivity]
            | right; split; [discriminate | split; [discriminate | reflexivity]] ].
Qed.

(** X11. Without a reference, the hours of a task are multiplied by 24 at
    most once: a text in elapsed hours is scaled by the cascade when below
    100 hours, a text in days is scaled when the duration is read and then
    passes through, and any other text gives 0. *)
Theorem no_reference_single_scaling (native_data : gmap Z NativeEntry) (task : Task)
    (d : Duration) :
  native_data !! task_id_of task = None ->
  Task_getDuration task = Some d ->
  corrected_hours (correct_task native_data task)
  = if Py.contains "eh" (Duration_str d)
    then if (getDuration d <? 100)%float then (getDuration d * 24)%float
         else getDuration d
    else if Py.contains "d" (Duration_str d) then (getDuration d * 24)%float
         else 0%float.
Proof.
  intros Hnone Hd. unfold correct_task, correct_duration.
  rewrite Hnone, Hd. cbn [duration_str_of mpxj_hours_of].
  destruct (Py.contains "eh" (Duration_str d)) eqn:Heh; cbn [andb].
  - destruct (getDuration d <? 100)%float; reflexivity.
  - destruct (Py.contains "d" (Duration_str d)); reflexivity.
Qed.

Lemma no_reference_single_scaling_witness :
  corrected_hours
    (correct_task ∅ {| getID := Some 3;
                       Task_getDuration := Some {| getDuration := 5; Duration_str := "5.0d" |};
                       getStart := None; getFinish := None; getPredecessors := None |})
  = (5 * 24)%float.
Proof.
  apply (no_reference_single_scaling ∅
           {| getID := Some 3;
              Task_getDuration := Some {| getDuration := 5; Duration_str := "5.0d" |};
              getStart := None; getFinish := None; getPredecessors := None |}
           {| getDuration := 5; Duration_str := "5.0d" |});
    reflexivity.
Defined.

Lemma correct_task_other_entry (native_data : gmap Z NativeEntry) (other : Z)
    (entry : NativeEntry) (task : Task) :
  task_id_of task <> other ->
  correct_task (<[other := entry]> native_data) task = correct_task native_data task.
Proof.
  intros Hne. unfold correct_task, correct_duration.
  rewrite lookup_insert_ne by congruence. reflexivity.
Qed.

(** X12. A row of the reference workbook for an ID that no task of the
    project has changes nothing in the rows read: each task is corrected
    from its own entry only. *)
Theorem unused_reference_changes_nothing (native_data : gmap Z NativeEntry) (other : Z)
    (entry : NativeEntry) (tasks : list (option Task)) :
  (forall task, In (Some task) tasks -> task_id_of task <> other) ->
  read_tasks (<[other := entry]> native_data) tasks = read_tasks native_data tasks.
Proof.
  induction tasks as [| [task |] tasks IH]; intros Hother; cbn [read_tasks].
  - reflexivity.
  - rewrite IH by (intros t Ht; apply Hother; right; exact Ht).
    unfold task_data.
    rewrite correct_task_other_entry by (apply Hother; left; reflexivity).
    reflexivity.
  - apply IH. intros t Ht. apply Hother. right. exact Ht.
Qed.

Lemma unused_reference_changes_nothing_witness :
  read_tasks (<[8 := {| native_hours := 16; native_name := "Montaje" |}]>
                (reference_for_7 240))
             [Some {| getID := Some 7;
                      Task_getDuration := Some {| getDuration := 10; Duration_str := "10.0eh" |};
                      getStart := None; getFinish := None; getPredecessors := None |}]
  = read_tasks (reference_for_7 240)
               [Some {| getID := Some 7;
                        Task_getDuration := Some {| getDuration := 10; Duration_str := "10.0eh" |};
                        getStart := None; getFinish := None; getPredecessors := None |}].
Proof.
  apply (unused_reference_changes_nothing (reference_for_7 240) 8
           {| native_hours := 16; native_name := "Montaje" |}
           [Some {| getID := Some 7;
                    Task_getDuration := Some {| getDuration := 10; Duration_str := "10.0eh" |};
                    getStart := None; getFinish := None; getPredecessors := None |}]).
  intros task [[= <-] | []]. vm_compute. discriminate.
Defined.

Lemma load_native_rows_snoc (rows : list NativeRow) (row : NativeRow) :
  load_native_rows (rows ++ [row])
  = <[row_ID row := entry_of_row row]> (load_native_rows rows).
Proof. unfold load_native_rows. rewrite fold_left_app. reflexivity. Qed.

(** X13. A task has an entry in the reference table exactly when its ID
    stands in a row of the workbook, and the entry is that of the last such
    row. *)
Theorem load_native_rows_lookup (rows : list NativeRow) :
  (forall task_id,
     load_native_rows rows !! task_id = None <-> ~ In task_id (map row_ID rows))
  /\ (forall before row after,
        rows = (before ++ row :: after)%list ->
        Forall (fun later => row_ID later <> row_ID row) after ->
        load_native_rows rows !! row_ID row = Some (entry_of_row row)).
Proof.
  split.
  - intros task_id. induction rows as [| row rows IH] using rev_ind.
    + split; [intros _ [] | intros _; apply lookup_empty].
    + rewrite load_native_rows_snoc, lookup_insert_None, IH, map_app, in_app_iff.
      cbn [map In]. intuition congruence.
  - intros before row after -> Hafter.
    induction after as [| later after IH] using rev_ind.
    + rewrite load_native_rows_snoc. apply lookup_insert_eq.
    + apply Forall_app in Hafter as [Hafter Hlater].
      inversion Hlater as [| ? ? Hne _]; subst.
      replace (before ++ row :: after ++ [later])%list
        with ((before ++ row :: after) ++ [later])%list
        by (rewrite <- app_assoc; reflexivity).
      rewrite load_native_rows_snoc, lookup_insert_ne by congruence.
      apply IH, Hafter.
Qed.

Lemma nan_of_is_nan (x : float) : PrimFloat.is_nan x = true -> x = nan.
Proof.
  intros H. apply Prim2SF_inj. unfold Prim2SF at 1. rewrite H. reflexivity.
Qed.

Lemma nan_div (y : float) : (nan / y)%float = nan.
Proof.
  apply Prim2SF_inj. rewrite FloatAxioms.div_spec.
  change (Prim2SF nan) with S754_nan. reflexivity.
Qed.

(** X14. A reference row whose hours cell is NaN (a blank cell) is still
    accepted: the corrected hours are NaN and the display text is 'nanh',
    under 'Nativo (factor nanx)' when the raw hours are positive and under
    'Nativo (MPXJ=0)' otherwise. *)
Theorem blank_reference_gives_nan (native_data : gmap Z NativeEntry) (task_id : Z)
    (raw_str : string) (raw_hours : float) (ref : NativeEntry) :
  native_data !! task_id = Some ref ->
  PrimFloat.is_nan (native_hours ref) = true ->
  corrected_hours (correct_duration native_data task_id raw_str raw_hours) = nan
  /\ corrected_duration_str (correct_duration native_data task_id raw_str raw_hours)
     = "nanh"
  /\ duration_source (correct_duration native_data task_id raw_str raw_hours)
     = if (0 <? raw_hours)%float then "Nativo (factor nanx)" else "Nativo (MPXJ=0)".
Proof.
  intros Href Hnan. unfold correct_duration.
  rewrite Href, (nan_of_is_nan _ Hnan), nan_div.
  change ((20 <=? nan)%float && (nan <=? 28)%float) with false.
  change ((0.8 <=? nan)%float && (nan <=? 1.2)%float) with false.
  destruct (0 <? raw_hours)%float; cbn [corrected_hours corrected_duration_str duration_source];
    (split; [reflexivity | split; vm_compute; reflexivity]).
Qed.

Lemma blank_reference_gives_nan_witness :
  duration_source (correct_duration (reference_for_7 nan) 7 "10.0eh" 10)
  = "Nativo (factor nanx)".
Proof.
  apply (blank_reference_gives_nan (reference_for_7 nan) 7 "10.0eh" 10
           {| native_hours := nan; native_name := "Excavacion" |});
    vm_compute; reflexivity.
Defined.

(** ** More on the predecessor notation *)

Lemma not_finite_not_zero (x : float) :
  is_finite x = false -> (x =? 0)%float = false.
Proof.
  unfold is_finite. rewrite FloatAxioms.eqb_spec, FloatFacts.Prim2SF_zero.
  destruct (Prim2SF x) as [s | s | | s m e]; try discriminate; intros _.
  - destruct s; reflexivity.
  - reflexivity.
Qed.

Lemma relation_token_None (relation : Relation) :
  relation_token relation = None <-> lag_not_finite relation = true.
Proof.
  unfold relation_token, lag_str_of, lag_not_finite.
  destruct (getLag relation) as [lag |]; cbn; [ | split; discriminate].
  destruct (is_finite (Lag_getDuration lag)) eqn:Hfin; cbn.
  - rewrite (is_finite_int _ Hfin).
    destruct (Lag_getDuration lag =? 0)%float; cbn; split; discriminate.
  - rewrite (not_finite_not_zero _ Hfin). cbn.
    rewrite (proj2 (int_None_iff _) Hfin). cbn. split; reflexivity.
Qed.

(** X15. [format_predecessors] raises exactly when some relation has a lag
    that is NaN or infinite; a missing predecessor task, type, lag or lag
    unit never makes it fail. *)
Theorem format_predecessors_raises_iff (relations : list Relation) :
  format_predecessors (Some relations) = None
  <-> Exists (fun relation => lag_not_finite relation = true) relations.
Proof.
  unfold format_predecessors. destruct relations as [| relation relations].
  - split; [discriminate | intros H; inversion H].
  - destruct (mapM relation_token (relation :: relations)) as [formatted |] eqn:Hmap; cbn.
    + split; [discriminate | ]. intros Hex.
      assert (Hnone : mapM relation_token (relation :: relations) = None).
      { apply mapM_None. eapply Exists_impl; [exact Hex | ].
        intros r Hr. apply relation_token_None, Hr. }
      congruence.
    + split; [intros _ | reflexivity].
      apply mapM_None in Hmap. eapply Exists_impl; [exact Hmap | ].
      intros r Hr. apply relation_token_None, Hr.
Qed.

Lemma relation_token_not_empty (relation : Relation) (token : string) :
  relation_token relation = Some token -> token <> EmptyString.
Proof.
  unfold relation_token.
  destruct (lag_str_of (getLag relation)) as [lag_str |]; cbn; [ | discriminate].
  intros [= <-].
  destruct (task_id_str (getPredecessorTask relation)) as [| c id].
  - rewrite append_nil. destruct (getType relation) as [[] |]; discriminate.
  - rewrite append_cons. discriminate.
Qed.

Lemma join_not_empty (sep first : string) (others : list string) :
  first <> EmptyString -> Py.join sep (first :: others) <> EmptyString.
Proof.
  intros Hfirst. destruct first as [| c first]; [contradiction | ].
  destruct others; cbn [Py.join]; [discriminate | rewrite append_cons; discriminate].
Qed.

(** X16. The Predecessors text is empty only for a task without
    predecessors: every relation leaves a token, its type at least. *)
Theorem format_predecessors_empty_iff (predecessors : option (list Relation)) :
  format_predecessors predecessors = Some EmptyString
  <-> predecessors = None \/ predecessors = Some [].
Proof.
  split.
  - destruct predecessors as [[| relation relations] |]; auto.
    unfold format_predecessors.
    destruct (mapM relation_token (relation :: relations)) as [formatted |] eqn:Hmap;
      cbn; [ | discriminate].
    intros [= Hjoin]. exfalso.
    apply mapM_Some_1 in Hmap. inversion Hmap as [| ? token ? tokens Htoken _]; subst.
    exact (join_not_empty "; " token tokens (relation_token_not_empty _ _ Htoken) Hjoin).
  - intros [-> | ->]; reflexivity.
Qed.

(** ** The rows read from a project *)

Lemma read_tasks_mapM (native_data : gmap Z NativeEntry) (tasks : list (option Task)) :
  read_tasks native_data tasks = mapM (task_data native_data) (present_tasks tasks).
Proof.
  unfold present_tasks.
  induction tasks as [| [task |] tasks IH]; cbn [read_tasks omap list_omap]; cbn.
  - reflexivity.
  - rewrite IH. reflexivity.
  - exact IH.
Qed.

(** X17. Reading a project fails exactly when the predecessors of one of
    its tasks cannot be formatted.  Otherwise there is one row per task
    that is not [None], in the order of the project, with the ID of the
    task and the source, hours and text its correction gives. *)
Theorem read_tasks_one_row_per_task (native_data : gmap Z NativeEntry)
    (tasks : list (option Task)) :
  (read_tasks native_data tasks = None
   <-> exists task, In (Some task) tasks
                    /\ format_predecessors (getPredecessors task) = None)
  /\ (forall rows, read_tasks native_data tasks = Some rows ->
        Forall2 (fun task row =>
                   ID row = task_id_of task
                   /\ Duration_Source row = duration_source (correct_task native_data task)
                   /\ Duration_Corrected_Hours row
                      = corrected_hours (correct_task native_data task)
                   /\ Duration_Corrected row
                      = corrected_duration_str (correct_task native_data task))
                (present_tasks tasks) rows).
Proof.
  rewrite read_tasks_mapM. split.
  - rewrite mapM_None, Exists_exists. unfold present_tasks. split.
    + intros (task & Hin & Hnone). exists task.
      apply list_elem_of_In in Hin.
      split.
      * apply list_elem_of_In. apply list_elem_of_In in Hin.
        apply list_elem_of_omap in Hin. destruct Hin as (x & Hx & ->). exact Hx.
      * unfold task_data in Hnone.
        destruct (format_predecessors (getPredecessors task)); [discriminate | reflexivity].
    + intros (task & Hin & Hnone). exists task. split.
      * apply list_elem_of_omap. exists (Some task). split; [ | reflexivity].
        apply list_elem_of_In. exact Hin.
      * unfold task_data. rewrite Hnone. reflexivity.
  - intros rows Hrows. apply mapM_Some_1 in Hrows.
    eapply Forall2_impl; [exact Hrows | ].
    intros task row Hrow. cbn in Hrow.
    destruct (task_data_columns native_data task row Hrow)
      as (Hid & _ & _ & Htext & Hhours & Hsource & _).
    auto.
Qed.

(** X18. The corrected reader returns the rows of the plain reader with
    the duration columns added: it fails when the plain reader fails, and
    otherwise ID, duration text, dates and predecessors of every row are
    those of the plain reader, whatever the reference table holds. *)
Theorem corrected_reader_extends_plain_reader (native_data : gmap Z NativeEntry)
    (tasks : list (option Task)) :
  read_ms_project tasks = map plain_columns <$> read_tasks native_data tasks.
Proof.
  induction tasks as [| [task |] tasks IH]; cbn [read_ms_project read_tasks].
  - reflexivity.
  - rewrite IH. unfold plain_task_data, task_data.
    destruct (format_predecessors (getPredecessors task)) as [predecessors |]; cbn;
      [ | reflexivity].
    destruct (read_tasks native_data tasks) as [rows |]; cbn; [ | reflexivity].
    unfold plain_columns, correct_task, correct_duration. cbn.
    destruct (native_data !! task_id_of task) as [ref |];
      repeat match goal with |- context [if ?b then _ else _] => destruct b end;
      reflexivity.
  - exact IH.
Qed.

(** ** The rows of the correction summary *)

Lemma insert_by_count_sorted (x : string * nat) (l : list (string * nat)) :
  Sorted (fun a b => (snd b <= snd a)%nat) l ->
  Sorted (fun a b => (snd b <= snd a)%nat) (insert_by_count x l).
Proof.
  induction 1 as [| y l Hl IH Hhd]; cbn [insert_by_count].
  - repeat constructor.
  - destruct (Nat.leb_spec (snd y) (snd x)) as [Hle | Hgt].
    + constructor; [constructor; assumption | constructor; exact Hle].
    + constructor; [exact IH | ].
      destruct l as [| z l]; cbn [insert_by_count].
      * constructor. lia.
      * inversion Hhd; subst.
        destruct (snd z <=? snd x)%nat; constructor; (assumption || lia).
Qed.

Lemma sort_by_count_sorted (l : list (string * nat)) :
  Sorted (fun a b => (snd b <= snd a)%nat) (sort_by_count l).
Proof.
  induction l as [| x l IH]; cbn; [constructor | apply insert_by_count_sorted, IH].
Qed.

(** X19. The correction summary has one 'Tasks from' row for each distinct
    source text of the table and no other, with the number of records that
    carry it, the most frequent source first; four rows of totals follow. *)
Theorem summary_one_row_per_source (column : list string) :
  List.NoDup (map fst (value_counts column))
  /\ (forall source count,
        In (source, count) (value_counts column)
        <-> In source column /\ count = occurrences source column)
  /\ Sorted (fun a b => (snd b <= snd a)%nat) (value_counts column)
  /\ (forall Series_sum tasks_df,
        length (summary_data Series_sum tasks_df)
        = (length (value_counts (map Duration_Source tasks_df)) + 4)%nat).
Proof.
  unfold value_counts.
  pose proof (sort_by_count_perm
                (map (fun v => (v, occurrences v column)) (Series_unique column)))
    as Hperm.
  split; [ | split; [ | split]].
  - eapply Permutation_NoDup.
    + apply Permutation_map. symmetry. exact Hperm.
    + rewrite map_map. cbn [fst]. rewrite map_id. apply Series_unique_NoDup.
  - intros source count. split.
    + intros Hin. apply (Permutation_in _ Hperm) in Hin.
      apply in_map_iff in Hin. destruct Hin as (v & [= <- <-] & Hv).
      apply (proj1 (Series_unique_In _ column)) in Hv. auto.
    + intros [Hin ->]. apply (Permutation_in _ (Permutation_sym Hperm)).
      apply in_map_iff. exists source. split; [reflexivity | ].
      apply (proj2 (Series_unique_In source column)). exact Hin.
  - apply sort_by_count_sorted.
  - intros Series_sum tasks_df. unfold summary_data. cbv zeta.
    rewrite length_app, length_map. reflexivity.
Qed.

(** ** A run of the corrected converter *)

(** X20. A run ends with exit status 0 exactly when the input file
    exists, the JVM runs or can be started, the project is read without
    exception, at least one task row comes out and the workbook is written;
    in every other case the status is 1. *)
Theorem main_exit_status (inputs : Inputs) (p : Process) :
  (fst (main inputs p) = 0
   <-> mpp_file_exists inputs = true
       /\ (jvm_started p = true \/ mpxj_available inputs = true)
       /\ output_writable inputs = true
       /\ exists tasks row rows,
            project_tasks inputs = Some tasks
            /\ read_ms_project_corrected (gant_FCC inputs) tasks = Some (row :: rows))
  /\ (fst (main inputs p) = 0 \/ fst (main inputs p) = 1).
Proof.
  unfold main, main_try, setup_jvm.
  destruct (mpp_file_exists inputs); cbn [negb].
  2: { cbn. split; [ | auto]. split; [discriminate | intros [H _]; discriminate H]. }
  assert (Hjvm : forall q : Process,
             (if jvm_started p then Some p
              else if mpxj_available inputs then Some q else None) = None
             -> ~ (jvm_started p = true \/ mpxj_available inputs = true)).
  { intros q. destruct (jvm_started p), (mpxj_available inputs);
      try discriminate. intros _ [H | H]; discriminate H. }
  destruct (if jvm_started p then Some p
            else if mpxj_available inputs
                 then Some {| jvm_started := true; exported := exported p |}
                 else None) as [p1 |] eqn:Hsetup.
  2: { cbn. split; [ | auto]. split; [discriminate | ].
       intros (_ & H & _). destruct (Hjvm _ Hsetup H). }
  assert (Hok : jvm_started p = true \/ mpxj_available inputs = true).
  { destruct (jvm_started p); [auto | ].
    destruct (mpxj_available inputs); [auto | discriminate Hsetup]. }
  destruct (project_tasks inputs) as [tasks |]; cbn.
  2: { split; [ | auto]. split; [discriminate | ].
       intros (_ & _ & _ & tasks & row & rows & H & _). discriminate H. }
  destruct (read_ms_project_corrected (gant_FCC inputs) tasks) as [[| row rows] |] eqn:Hread;
    cbn.
  - split; [ | auto]. split; [discriminate | ].
    intros (_ & _ & _ & tasks' & row & rows & [= <-] & H). congruence.
  - destruct (output_writable inputs); cbn; (split; [ | auto]).
    + split; [intros _ | reflexivity].
      split; [reflexivity | split; [exact Hok | split; [reflexivity | ]]].
      exists tasks, row, rows. auto.
    + split; [discriminate | ]. intros (_ & _ & H & _). discriminate H.
  - split; [ | auto]. split; [discriminate | ].
    intros (_ & _ & _ & tasks' & row & rows & [= <-] & H). congruence.
Qed.

(** X21. Once the input file exists, the run leaves no JVM behind, on any
    path: after a successful export, after an exception and after the exit
    for a project without tasks.  The export is called at most once, and
    only with the rows just read, of which there is at least one. *)
Theorem main_releases_jvm (inputs : Inputs) (p : Process) :
  mpp_file_exists inputs = true ->
  jvm_started (snd (main inputs p)) = false
  /\ (exported (snd (main inputs p)) = exported p
      \/ exists tasks row rows,
           project_tasks inputs = Some tasks
           /\ read_ms_project_corrected (gant_FCC inputs) tasks = Some (row :: rows)
           /\ exported (snd (main inputs p)) = (exported p ++ [row :: rows])%list).
Proof.
  intros Hexists. unfold main, main_try, main_finally, setup_jvm. rewrite Hexists. cbn [negb].
  destruct (jvm_started p) eqn:Hp; [ | destruct (mpxj_available inputs)].
  3: { cbn. rewrite Hp. auto. }
  all: destruct (project_tasks inputs) as [tasks |];
    [ destruct (read_ms_project_corrected (gant_FCC inputs) tasks) as [[| row rows] |] eqn:Hread;
      [ | destruct (output_writable inputs) | ] | ];
    cbn; rewrite ?Hp; cbn; split; try reflexivity; auto;
    right; exists tasks, row, rows; auto.
Qed.

Lemma main_releases_jvm_witness :
  jvm_started
    (snd (main {| mpp_file_exists := true; mpxj_available := true; project_tasks := None;
                  gant_FCC := None; output_writable := true |}
               {| jvm_started := false; exported := [] |}))
  = false.
Proof.
  apply (main_releases_jvm
           {| mpp_file_exists := true; mpxj_available := true; project_tasks := None;
              gant_FCC := None; output_writable := true |}
           {| jvm_started := false; exported := [] |}).
  reflexivity.
Defined.

(** ** The name of the output file *)

Example splitext_samples :
  PyPath.splitext "plan.mpp" = ("plan", ".mpp")
  /\ PyPath.splitext "/data/fcc.v2/plan" = ("/data/fcc.v2/plan", "")
  /\ PyPath.splitext "/data/.mpp" = ("/data/.mpp", "")
  /\ PyPath.splitext "..mpp" = ("..mpp", "")
  /\ PyPath.splitext "a.tar.gz" = ("a.tar", ".gz")
  /\ PyPath.splitext "plan." = ("plan", ".")
  /\ output_file "/data/.mpp" None = "/data/.mpp.xlsx".
Proof. vm_compute. repeat split. Qed.

Lemma take_drop (n : nat) (p : string) : PyPath.take n p ++ PyPath.drop n p = p.
Proof.
  revert p. induction n as [| n IH]; intros [| c p]; try reflexivity.
  cbn [PyPath.take PyPath.drop]. rewrite append_cons, IH. reflexivity.
Qed.

Lemma take_app (a b : string) : PyPath.take (String.length a) (a ++ b) = a.
Proof.
  induction a as [| c a IH]; [destruct b; reflexivity | ].
  rewrite append_cons. cbn [String.length PyPath.take]. rewrite IH. reflexivity.
Qed.

Lemma drop_app (a b : string) : PyPath.drop (String.length a) (a ++ b) = b.
Proof.
  induction a as [| c a IH]; [destruct b; reflexivity | ].
  rewrite append_cons. cbn [String.length PyPath.drop]. exact IH.
Qed.

Lemma append_assoc (a b c : string) : (a ++ b) ++ c = a ++ b ++ c.
Proof.
  induction a as [| x a IH]; [reflexivity | ].
  rewrite !append_cons, IH. reflexivity.
Qed.

Lemma append_cancel (a b c : string) : a ++ b = a ++ c -> b = c.
Proof.
  induction a as [| x a IH]; [rewrite !append_nil; auto | ].
  rewrite !append_cons. intros [= H]. exact (IH H).
Qed.

Lemma rfind_cons (c c' : ascii) (p : string) :
  PyPath.rfind c (String c' p)
  = if 0 <=? PyPath.rfind c p then PyPath.rfind c p + 1
    else if Ascii.eqb c' c then 0 else -1.
Proof. reflexivity. Qed.

Lemma rfind_range (c : ascii) (p : string) :
  -1 <= PyPath.rfind c p < Z.of_nat (String.length p).
Proof.
  induction p as [| c' p IH]; [cbn; lia | ].
  rewrite rfind_cons. cbn [String.length].
  destruct (Z.leb_spec 0 (PyPath.rfind c p)); [lia | ].
  destruct (Ascii.eqb c' c); lia.
Qed.

Lemma rfind_without (c : ascii) (s : string) :
  PyPath.without c s = true -> PyPath.rfind c s = -1.
Proof.
  unfold PyPath.without. induction s as [| c' s IH]; [reflexivity | ].
  cbn [PyStr.forallb]. intros H. apply andb_prop in H as [Hc Hs].
  rewrite rfind_cons, (IH Hs). cbn.
  apply negb_true_iff in Hc. rewrite Hc. reflexivity.
Qed.

Lemma rfind_app_without (c : ascii) (a b : string) :
  PyPath.without c b = true -> PyPath.rfind c (a ++ b) = PyPath.rfind c a.
Proof.
  intros Hb. induction a as [| c' a IH].
  - rewrite append_nil. apply rfind_without, Hb.
  - rewrite append_cons, !rfind_cons, IH. reflexivity.
Qed.

Lemma rfind_last (c : ascii) (a b : string) :
  PyPath.without c b = true ->
  PyPath.rfind c (a ++ String c b) = Z.of_nat (String.length a).
Proof.
  intros Hb. induction a as [| c' a IH].
  - rewrite append_nil, rfind_cons, (rfind_without c b Hb), Ascii.eqb_refl. reflexivity.
  - rewrite append_cons, rfind_cons, IH. cbn [String.length].
    destruct (Z.leb_spec 0 (Z.of_nat (String.length a))); lia.
Qed.

(** What [rfind] finds is the last occurrence. *)
Lemma rfind_found (c : ascii) (p : string) :
  0 <= PyPath.rfind c p ->
  exists b, PyPath.drop (Z.to_nat (PyPath.rfind c p)) p = String c b
            /\ PyPath.without c b = true.
Proof.
  induction p as [| c' p IH]; [cbn; lia | ].
  rewrite rfind_cons.
  destruct (Z.leb_spec 0 (PyPath.rfind c p)) as [Hr | Hr].
  - intros _. destruct (IH Hr) as (b & Hb & Hw). exists b. split; [ | exact Hw].
    replace (Z.to_nat (PyPath.rfind c p + 1)) with (S (Z.to_nat (PyPath.rfind c p))) by lia.
    exact Hb.
  - destruct (Ascii.eqb_spec c' c) as [-> | Hne]; [ | lia].
    intros _. exists p. split; [reflexivity | ].
    clear IH. unfold PyPath.without.
    induction p as [| x p IHp]; [reflexivity | ].
    rewrite rfind_cons in Hr.
    destruct (Z.leb_spec 0 (PyPath.rfind c p)); [lia | ].
    cbn [PyStr.forallb]. destruct (Ascii.eqb x c); [lia | ].
    cbn. apply IHp. lia.
Qed.

(** X22. [splitext] cuts the path in two parts that give it back when put
    together; the extension is empty or is the last dot of the path with
    what follows it, in which there is no '/'.  So the default output file
    is the input file itself exactly when the input already ends in the
    extension '.xlsx'; an output given with [-o] is used as it is. *)
Theorem output_file_default (input_file : string) :
  fst (PyPath.splitext input_file) ++ snd (PyPath.splitext input_file) = input_file
  /\ (snd (PyPath.splitext input_file) = EmptyString
      \/ exists e, snd (PyPath.splitext input_file) = String "." e
                   /\ PyPath.without "." e = true /\ PyPath.without "/" e = true)
  /\ (output_file input_file None = input_file
      <-> snd (PyPath.splitext input_file) = ".xlsx")
  /\ (forall output, output_file input_file (Some output) = output).
Proof.
  assert (Hsplit : fst (PyPath.splitext input_file) ++ snd (PyPath.splitext input_file)
                   = input_file).
  { unfold PyPath.splitext.
    destruct ((PyPath.rfind "/" input_file <? PyPath.rfind "." input_file)
              && PyPath.has_name_char _); cbn [fst snd].
    - apply take_drop.
    - clear. induction input_file as [| c p IH]; [reflexivity | ].
      rewrite append_cons, IH. reflexivity. }
  split; [exact Hsplit | split; [ | split]].
  - unfold PyPath.splitext.
    destruct (Z.ltb_spec (PyPath.rfind "/" input_file) (PyPath.rfind "." input_file))
      as [Hlt | Hge]; cbn [andb]; [ | left; reflexivity].
    destruct (PyPath.has_name_char _); cbn [snd]; [ | left; reflexivity].
    right.
    pose proof (rfind_range "/" input_file) as Hsep.
    destruct (rfind_found "." input_file) as (e & He & Hdot); [lia | ].
    exists e. split; [exact He | split; [exact Hdot | ]].
    (* a '/' behind the last dot would be found behind it *)
    destruct (PyPath.without "/" e) eqn:Hw; [reflexivity | exfalso].
    pose proof (take_drop (Z.to_nat (PyPath.rfind "." input_file)) input_file) as Hp.
    rewrite He in Hp.
    assert (Hlen : Z.of_nat (String.length
                               (PyPath.take (Z.to_nat (PyPath.rfind "." input_file)) input_file))
                   = PyPath.rfind "." input_file).
    { pose proof (rfind_last "." (PyPath.take (Z.to_nat (PyPath.rfind "." input_file))
                                              input_file) e Hdot) as Hlast.
      rewrite Hp in Hlast. symmetry. exact Hlast. }
    assert (Hfar : forall a b, PyPath.without "/" b = false ->
                     Z.of_nat (String.length a) <= PyPath.rfind "/" (a ++ b)).
    { clear. intros a b Hb. induction a as [| x a IH].
      - rewrite append_nil. cbn [String.length].
        pose proof (rfind_range "/" b).
        destruct (Z.eq_dec (PyPath.rfind "/" b) (-1)) as [Hn | Hn]; [ | lia].
        exfalso. revert Hb Hn. clear. unfold PyPath.without.
        induction b as [| y b IHb]; [discriminate | ].
        cbn [PyStr.forallb]. rewrite rfind_cons.
        pose proof (rfind_range "/" b).
        destruct (Z.leb_spec 0 (PyPath.rfind "/" b)); [lia | ].
        destruct (Ascii.eqb y "/"); [lia | ]. cbn. intros Hb _. apply IHb; [exact Hb | lia].
      - rewrite append_cons, rfind_cons. cbn [String.length].
        destruct (Z.leb_spec 0 (PyPath.rfind "/" (a ++ b))); lia. }
    specialize (Hfar (PyPath.take (Z.to_nat (PyPath.rfind "." input_file)) input_file)
                     (String "." e)).
    rewrite Hp, Hlen in Hfar.
    assert (Hw' : PyPath.without "/" (String "." e) = false).
    { unfold PyPath.without in *. cbn [PyStr.forallb]. rewrite Hw. reflexivity. }
    specialize (Hfar Hw'). lia.
  - unfold output_file. split.
    + intros H. apply (append_cancel (fst (PyPath.splitext input_file))).
      rewrite Hsplit. symmetry. exact H.
    + intros H. rewrite <- H. exact Hsplit.
  - reflexivity.
Qed.

Lemma has_name_char_forallb (name : string) :
  PyPath.has_name_char name = negb (PyStr.forallb (fun c => Ascii.eqb c ".") name).
Proof.
  induction name as [| c name IH]; [reflexivity | ].
  cbn [PyPath.has_name_char PyStr.forallb]. destruct (Ascii.eqb c "."); [exact IH | reflexivity].
Qed.

(** X23. For a file name that does not consist of dots only, in any
    directory, the default output file is the input file with its last
    extension replaced by '.xlsx'. *)
Theorem output_file_replaces_extension (dir name e : string) :
  dir = EmptyString \/ (exists d, dir = d ++ "/") ->
  PyPath.without "/" name = true ->
  PyPath.has_name_char name = true ->
  PyPath.without "." e = true ->
  PyPath.without "/" e = true ->
  PyPath.splitext (dir ++ name ++ "." ++ e) = (dir ++ name, "." ++ e)
  /\ output_file (dir ++ name ++ "." ++ e) None = dir ++ name ++ ".xlsx".
Proof.
  intros Hdir Hname Hchar He_dot He_sep.
  assert (Hsplit : PyPath.splitext (dir ++ name ++ "." ++ e) = (dir ++ name, "." ++ e)).
  { unfold PyPath.splitext.
    assert (Hdot : PyPath.rfind "." (dir ++ name ++ "." ++ e)
                   = Z.of_nat (String.length (dir ++ name))).
    { rewrite <- append_assoc. apply rfind_last, He_dot. }
    assert (Hrest : PyPath.without "/" (name ++ "." ++ e) = true).
    { unfold PyPath.without in *. clear - Hname He_sep.
      induction name as [| c name IH].
      - rewrite append_nil. cbn [PyStr.forallb String.append]. exact He_sep.
      - rewrite append_cons. cbn [PyStr.forallb] in *.
        apply andb_prop in Hname as [Hc Hn]. rewrite Hc, (IH Hn). reflexivity. }
    assert (Hsep : PyPath.rfind "/" (dir ++ name ++ "." ++ e) + 1
                   = Z.of_nat (String.length dir)).
    { rewrite rfind_app_without by exact Hrest.
      destruct Hdir as [-> | (d & ->)]; [reflexivity | ].
      rewrite (rfind_last "/" d EmptyString) by reflexivity.
      rewrite length_append. cbn [String.length]. lia. }
    rewrite Hdot, length_append.
    replace (PyPath.rfind "/" (dir ++ name ++ "." ++ e) <?
             Z.of_nat (String.length dir + String.length name)) with true
      by (symmetry; apply Z.ltb_lt; lia).
    rewrite Hsep.
    replace (Z.to_nat (Z.of_nat (String.length dir + String.length name)
                       - Z.of_nat (String.length dir)))
      with (String.length name) by lia.
    rewrite Nat2Z.id, drop_app, take_app, Hchar. cbn [andb].
    rewrite Nat2Z.id, <- length_append, <- append_assoc, take_app, drop_app.
    reflexivity. }
  split; [exact Hsplit | ].
  unfold output_file. rewrite Hsplit. cbn [fst]. apply append_assoc.
Qed.

Lemma output_file_replaces_extension_witness :
  output_file ("/data/" ++ "plan.v2" ++ "." ++ "mpp") None = "/data/" ++ "plan.v2" ++ ".xlsx".
Proof.
  apply (output_file_replaces_extension "/data/" "plan.v2" "mpp");
    try (vm_compute; reflexivity).
  right. exists "/data". reflexivity.
Defined.
